(** * Enrolment Dates Checker

    A shallow embedding of [Enrolment_Dates_Checker.py] and the properties of
    its date normaliser, record validators, record cleaners and
    reconciliation engine.

    Python values are embedded as the type [value]; a Python function that
    can raise is a function into [outcome]; a function that also calls one of
    the logging or export collaborators runs in the monad [M], which threads
    the trace of collaborator calls made so far. *)

From Stdlib Require Import String Ascii List Bool Arith Lia.
Import ListNotations.

Open Scope string_scope.
Open Scope list_scope.

(* ================================================================= *)
(** ** Python values, exceptions and the effect monad *)

Module Py.

(** The values that flow through the program: [None], a [str], and the
    float [nan] that a left join puts in the columns of an unmatched row. *)
Inductive value : Type :=
| VNone
| VStr (s : string)
| VNaN.

Inductive exn : Type :=
| IndexError
| AttributeError
| TypeError
| KeyError
| ValueError.

Inductive outcome (A : Type) : Type :=
| Return (a : A)
| Raise (e : exn).
Arguments Return {A} a.
Arguments Raise {A} e.

Definition obind {A B} (m : outcome A) (k : A -> outcome B) : outcome B :=
  match m with
  | Return a => k a
  | Raise e => Raise e
  end.

(** [str(v)] *)
Definition str (v : value) : string :=
  match v with
  | VNone => "None"
  | VStr s => s
  | VNaN => "nan"
  end.

(** [len(v)]: only a [str] has a length here. *)
Definition len (v : value) : outcome nat :=
  match v with
  | VStr s => Return (String.length s)
  | _ => Raise TypeError
  end.

(** [v in (None, '')] *)
Definition in_none_empty (v : value) : bool :=
  match v with
  | VNone => true
  | VStr s => (s =? "")%string
  | VNaN => false
  end.

(** [a != b]: strings compare by content, [None] equals only [None], and
    [nan] differs from everything, itself included. *)
Definition ne (a b : value) : bool :=
  match a, b with
  | VStr x, VStr y => negb (x =? y)%string
  | VNone, VNone => false
  | _, _ => true
  end.

(** [row[i]] for a literal, non-negative index. *)
Definition getitem {A} (row : list A) (i : nat) : outcome A :=
  match nth_error row i with
  | Some v => Return v
  | None => Raise IndexError
  end.

(** [str.isspace] on the code points below 256. *)
Definition is_space (c : ascii) : bool :=
  let n := nat_of_ascii c in
  (((9 <=? n) && (n <=? 13)) || ((28 <=? n) && (n <=? 32))
   || (n =? 133) || (n =? 160))%nat.

Fixpoint lstrip (s : string) : string :=
  match s with
  | EmptyString => EmptyString
  | String c s' => if is_space c then lstrip s' else s
  end.

Fixpoint rstrip (s : string) : string :=
  match s with
  | EmptyString => EmptyString
  | String c s' =>
      match rstrip s' with
      | EmptyString => if is_space c then EmptyString else String c EmptyString
      | r => String c r
      end
  end.

(** [s.strip()] *)
Definition strip_str (s : string) : string := rstrip (lstrip s).

(** [v.strip()]: an attribute of [str] only. *)
Definition strip (v : value) : outcome value :=
  match v with
  | VStr s => Return (VStr (strip_str s))
  | _ => Raise AttributeError
  end.

(** [for x in xs: s = body x s], stopping at the first exception. *)
Fixpoint for_each {A S} (body : A -> S -> outcome S) (xs : list A) (s : S)
  : outcome S :=
  match xs with
  | [] => Return s
  | x :: xs' => obind (body x s) (for_each body xs')
  end.

End Py.
Import Py.

Declare Scope py_scope.
Delimit Scope py_scope with py.
Notation "x <- m ;; k" := (obind m (fun x => k))
  (at level 61, m at next level, right associativity) : py_scope.

(* ================================================================= *)
(** ** Date normaliser *)

(** [clean_date]: a date of exactly nine characters gets a leading zero. *)
Definition clean_date (date : value) : outcome value :=
  (n <- len date ;;
   if (n =? 9)%nat then Return (VStr ("0" ++ str date)%string) else Return date)%py.

(** [clean_date_2]: day, month and year are cut out of [str(date)] at fixed
    offsets; a Python slice past the end of the string is truncated, as
    [substring] is. *)
Definition clean_date_2 (date : value) : value :=
  let str_date := str date in
  let day := substring 8 2 str_date in
  let month := substring 5 2 str_date in
  let year := substring 0 4 str_date in
  let cleaned_date := (day ++ "/" ++ month ++ "/" ++ year)%string in
  VStr cleaned_date.

(* ================================================================= *)
(** ** Data frames *)

Module Pandas.

(** A table: column labels and rows, in row order.  The row index of
    pandas is left out, it is never read by the program. *)
Record DataFrame : Type := mkDataFrame {
  columns : list string;
  data : list (list value)
}.

(** Modelled from the spec: [pandas.DataFrame(data = rows, columns =
    headings)], pandas is not part of the repository.  The program only
    builds frames from rows that have one value per heading; any other
    input is reported as [ValueError]. *)
Definition new (rows : list (list value)) (headings : list string)
  : outcome DataFrame :=
  if forallb (fun r => (length r =? length headings)%nat) rows
  then Return (mkDataFrame headings rows)
  else Raise ValueError.

Fixpoint index_of (name : string) (cols : list string) : option nat :=
  match cols with
  | [] => None
  | c :: cs =>
      if (c =? name)%string then Some 0 else option_map S (index_of name cs)
  end.

(** Modelled from the spec: [row[name]] on a row of a frame with columns
    [cols]; an unknown label is a [KeyError]. *)
Definition loc (cols : list string) (row : list value) (name : string)
  : outcome value :=
  match index_of name cols with
  | Some i => Return (nth i row VNaN)
  | None => Raise KeyError
  end.

(** Modelled from the spec: [row[names]] for a list of labels. *)
Fixpoint loc_list (cols : list string) (row : list value)
  (names : list string) : outcome (list value) :=
  match names with
  | [] => Return []
  | n :: ns =>
      (v <- loc cols row n ;;
       vs <- loc_list cols row ns ;;
       Return (v :: vs))%py
  end.

Definition mem (name : string) (cols : list string) : bool :=
  existsb (String.eqb name) cols.

(** A column other than the key that both frames have gets the suffix. *)
Definition suffixed (cols other : list string) (on suffix : string)
  : list string :=
  map (fun c =>
         if negb (c =? on)%string && mem c other
         then (c ++ suffix)%string else c) cols.

Fixpoint remove_at {A} (i : nat) (l : list A) : list A :=
  match l, i with
  | [], _ => []
  | _ :: xs, 0 => xs
  | x :: xs, S i' => x :: remove_at i' xs
  end.

(** Join keys: equal strings match, and a null matches a null. *)
Definition key_eq (a b : value) : bool :=
  match a, b with
  | VStr x, VStr y => (x =? y)%string
  | VStr _, _ | _, VStr _ => false
  | _, _ => true
  end.

(** The right rows whose key equals that of the left row [l]. *)
Definition matches (i j : nat) (right_rows : list (list value))
  (l : list value) : list (list value) :=
  filter (fun r => key_eq (nth i l VNaN) (nth j r VNaN)) right_rows.

(** The joined rows that one left row gives: itself with [nan] in the
    right-hand columns when no right row has its key, and one row per
    matching right row otherwise. *)
Definition join_row (i j width : nat) (right_rows : list (list value))
  (l : list value) : list (list value) :=
  match matches i j right_rows l with
  | [] => [l ++ repeat VNaN (width - 1)]
  | ms => map (fun r => l ++ remove_at j r) ms
  end.

(** Modelled from the spec: [pandas.merge(left, right, on = on, how =
    'left', suffixes = ...)], pandas is not part of the repository.  The
    join keeps the left rows in their order; the key column is kept once,
    the remaining right-hand columns follow the left-hand ones. *)
Definition merge_left (left right : DataFrame) (on : string)
  (suffixes : string * string) : outcome DataFrame :=
  match index_of on (columns left), index_of on (columns right) with
  | Some i, Some j =>
      let cols :=
        suffixed (columns left) (columns right) on (fst suffixes)
        ++ remove_at j
             (suffixed (columns right) (columns left) on (snd suffixes)) in
      Return (mkDataFrame cols
                (flat_map (join_row i j (length (columns right)) (data right))
                   (data left)))
  | _, _ => Raise KeyError
  end.

(** Modelled from the spec: [df.rename(columns = mapping)]. *)
Definition rename (df : DataFrame) (mapping : list (string * string))
  : DataFrame :=
  let new_name c :=
    match find (fun kv => (fst kv =? c)%string) mapping with
    | Some kv => snd kv
    | None => c
    end in
  mkDataFrame (map new_name (columns df)) (data df).

End Pandas.
Import Pandas.

(* ================================================================= *)
(** ** Collaborators and their trace *)

(** A call to one of the collaborators that log or export. *)
Inductive event : Type :=
| ConfirmFiles (report : string) (required_files : list string)
| ProcessErrorLog (errors : list string) (report : string)
| ProcessWarningLog (warnings : list string) (to_process : bool)
| ToExcel (df : DataFrame) (f_name : string).

(** A computation that may raise and that extends the trace of calls. *)
Definition M (A : Type) : Type := list event -> outcome A * list event.

Definition ret {A} (a : A) : M A := fun t => (Return a, t).

Definition bind {A B} (m : M A) (k : A -> M B) : M B :=
  fun t =>
    match m t with
    | (Return a, t') => k a t'
    | (Raise e, t') => (Raise e, t')
    end.

Definition lift {A} (o : outcome A) : M A := fun t => (o, t).

Definition call (e : event) : M unit := fun t => (Return tt, t ++ [e]).

Declare Scope io_scope.
Delimit Scope io_scope with io.
Notation "x <- m ;; k" := (bind m (fun x => k))
  (at level 61, m at next level, right associativity) : io_scope.
Notation "m ;; k" := (bind m (fun _ => k))
  (at level 61, right associativity) : io_scope.

(** The pure collaborators of the cleaners, which live in [custtools]:
    [db.extract_course_code], [da.clean_date] and
    [ft.generate_time_string] (the result of its n-th call). *)
Class Collaborators : Type := {
  extract_course_code : value -> outcome value;
  da_clean_date : value -> outcome value;
  generate_time_string : nat -> string
}.

Definition nl : string := String (ascii_of_nat 10) EmptyString.

(* ================================================================= *)
(** ** Record validators *)

(** [if student[i] in (None, ''): acc.append(msg.format(student[0]))],
    where [msg] ends in its only placeholder. *)
Definition append_if_missing (student : list value) (i : nat) (msg : string)
  (acc : list string) : outcome (list string) :=
  (field <- getitem student i ;;
   if in_none_empty field
   then (sid <- getitem student 0 ;; Return (acc ++ [(msg ++ str sid)%string]))
   else Return acc)%py.

Definition edsd_header : string :=
  (nl ++ "Enrolment Dates (Student Database) Report Warnings:" ++ nl)%string.
Definition edsd_report : string := "Enrolment Dates (Student Database) Report".

Definition edlp_header : string :=
  (nl ++ "Enrolment Dates (Learning Platform) Report Warnings:" ++ nl)%string.
Definition edlp_report : string := "Enrolment Dates (Learning Platform) Report".

(** One turn of the loop of [check_edsd] on the lists (errors, warnings). *)
Definition check_edsd_student (student : list value)
  (st : list string * list string) : outcome (list string * list string) :=
  let '(errors, warnings) := st in
  (errors <- append_if_missing student 1
     "Course code is missing for student with Student ID " errors ;;
   warnings <- append_if_missing student 2
     "Tutor is missing for student with Student ID " warnings ;;
   errors <- append_if_missing student 3
     "Enrolment Date is missing for student with Student ID " errors ;;
   errors <- append_if_missing student 4
     "Expiry Date is missing for student with Student ID " errors ;;
   Return (errors, warnings))%py.

Definition check_edsd (report_data : list (list value))
  : M (bool * list string) :=
  (st <- lift (for_each check_edsd_student report_data ([], [edsd_header])) ;;
   let '(errors, warnings) := st in
   (if (0 <? length errors)%nat
    then call (ProcessErrorLog errors edsd_report)
    else ret tt) ;;
   if (1 <? length warnings)%nat
   then ret (true, warnings)
   else ret (false, warnings))%io.

(** One turn of the loop of [check_edlp]. *)
Definition check_edlp_student (student : list value)
  (st : list string * list string) : outcome (list string * list string) :=
  let '(errors, warnings) := st in
  (warnings <- append_if_missing student 1
     "Student Name is missing for student with Student ID " warnings ;;
   errors <- append_if_missing student 2
     "Course is missing for student with Student ID " errors ;;
   errors <- append_if_missing student 3
     "Enrolment Date is missing for student with Student ID " errors ;;
   errors <- append_if_missing student 4
     "Expiry Date is missing for student with Student ID " errors ;;
   Return (errors, warnings))%py.

Definition check_edlp (report_data : list (list value))
  : M (bool * list string) :=
  (st <- lift (for_each check_edlp_student report_data ([], [edlp_header])) ;;
   let '(errors, warnings) := st in
   (if (0 <? length errors)%nat
    then call (ProcessErrorLog errors edlp_report)
    else ret tt) ;;
   if (1 <? length warnings)%nat
   then ret (true, warnings)
   else ret (false, warnings))%io.

(* ================================================================= *)
(** ** Record cleaners *)

(** [student[i].strip()] *)
Definition stripped (student : list value) (i : nat) : outcome value :=
  (field <- getitem student i ;; strip field)%py.

Definition remove_students (students : list (list value)) (location : nat)
  (identifier : value) : outcome (list (list value)) :=
  for_each
    (fun student updated_list =>
       (field <- getitem student location ;;
        if ne field identifier
        then Return (updated_list ++ [student])
        else Return updated_list)%py)
    students [].

(** The row [cleaned_student] that [clean_lp_data] builds for a student. *)
Definition clean_lp_student `{Collaborators} (student : list value)
  : outcome (list value) :=
  (sid <- stripped student 0 ;;
   name <- stripped student 1 ;;
   label <- getitem student 2 ;;
   code <- extract_course_code label ;;
   code <- strip code ;;
   start <- getitem student 3 ;;
   start <- da_clean_date start ;;
   expiry <- getitem student 4 ;;
   expiry <- da_clean_date expiry ;;
   Return [sid; name; code; start; expiry])%py.

Definition clean_lp_data `{Collaborators} (raw_data : list (list value))
  : outcome (list (list value)) :=
  (cleaned_data <-
     for_each (fun student cleaned_data =>
                 cleaned_student <- clean_lp_student student ;;
                 Return (cleaned_data ++ [cleaned_student]))
       raw_data [] ;;
   remove_students cleaned_data 2 (VStr "Skip"))%py.

(** The row [cleaned_student] that [clean_sd_data] builds for a student. *)
Definition clean_sd_student (student : list value) : outcome (list value) :=
  (sid <- stripped student 0 ;;
   course <- stripped student 1 ;;
   start <- getitem student 3 ;;
   start <- clean_date start ;;
   expiry <- getitem student 4 ;;
   expiry <- clean_date expiry ;;
   Return [sid; course; start; expiry])%py.

Definition clean_sd_data (raw_data : list (list value))
  : outcome (list (list value)) :=
  for_each (fun student cleaned_data =>
              (cleaned_student <- clean_sd_student student ;;
               Return (cleaned_data ++ [cleaned_student]))%py)
    raw_data [].

(* ================================================================= *)
(** ** Reconciliation engine *)

(** One turn of the loop of [compare_dates] over the rows of the join. *)
Definition compare_row (cols : list string) (col_name : string)
  (headings : list string) (row : list value)
  (differing : list (list value)) : outcome (list (list value)) :=
  (a <- loc cols row (col_name ++ "_1")%string ;;
   b <- loc cols row (col_name ++ "_2")%string ;;
   if ne a b
   then (selected <- loc_list cols row headings ;;
         Return (differing ++ [selected]))
   else Return differing)%py.

Definition compare_dates (df_1 df_2 : DataFrame) (common col_name : string)
  (headings : list string) : outcome DataFrame :=
  (combined <- merge_left df_1 df_2 common ("_1", "_2") ;;
   differing <- for_each (compare_row (columns combined) col_name headings)
                  (data combined) [] ;;
   Return (mkDataFrame headings differing))%py.

(* ================================================================= *)
(** ** Loading and the top-level run *)

(** [load_data], on the rows that [csv.reader] yields once the file is open
    and its first line has been skipped; asking again for the name of a file
    that does not exist belongs to the console. *)
Definition load_data (file : list (list string)) (source : string)
  : M (list (list value) * bool * list string) :=
  let warnings : list string := [] in
  (read_data <-
     lift (for_each
             (fun row read_data =>
                (first <- getitem row 0 ;;
                 if negb (in_none_empty first)
                 then Return (read_data ++ [row])
                 else Return read_data)%py)
             (map (map VStr) file) []) ;;
   (if (source =? "edlp")%string then (_ <- check_edlp read_data ;; ret tt)
    else if (source =? "edsd")%string then (_ <- check_edsd read_data ;; ret tt)
    else ret tt) ;;
   if (0 <? length warnings)%nat
   then ret (read_data, true, warnings)
   else ret (read_data, false, warnings))%io.

Definition dates_header : string :=
  (nl ++ "Processing Enrolment Dates data Warnings:" ++ nl)%string.

(** [process_enrolment_dates], on the contents of the two files the operator
    names.  Console output is left out. *)
Definition process_enrolment_dates `{Collaborators}
  (lp_file sd_file : list (list string)) : M unit :=
  let warnings := [dates_header] in
  let warnings_to_process := false in
  let required_files :=
    ["Enrolment Dates (Learning Platform)";
     "Enrolment Dates (Student Databse)"] in
  (call (ConfirmFiles "Enrolment Dates Report" required_files) ;;
   loaded <- load_data lp_file "edlp" ;;
   let '(raw_lp_data, to_add, warnings_to_add) := loaded in
   lp_data <- lift (clean_lp_data raw_lp_data) ;;
   let sid_name := "StudentID" in
   let s_name := "Student" in
   let c_name := "Course" in
   let sd_name := "Start Date" in
   let ex_name := "Expiry Date" in
   let headings := [sid_name; s_name; c_name; sd_name; ex_name] in
   lp_df <- lift (Pandas.new lp_data headings) ;;
   loaded <- load_data sd_file "edsd" ;;
   let '(raw_sd_data, to_add, warnings_to_add) := loaded in
   sd_data <- lift (clean_sd_data raw_sd_data) ;;
   let headings := [sid_name; c_name; sd_name; ex_name] in
   sd_df <- lift (Pandas.new sd_data headings) ;;
   let headings :=
     [sid_name; s_name; "Course_1"; "Start Date_1"; "Start Date_2"] in
   start <- lift (compare_dates lp_df sd_df sid_name sd_name headings) ;;
   let start := rename start [("Start Date_1", "Start Date LP");
                              ("Start Date_2", "Start Date SD")] in
   let f_name :=
     ("Start_Dates_" ++ generate_time_string 0 ++ ".xls")%string in
   call (ToExcel start f_name) ;;
   let headings :=
     [sid_name; s_name; "Course_1"; "Expiry Date_1"; "Expiry Date_2"] in
   expiry <- lift (compare_dates lp_df sd_df sid_name ex_name headings) ;;
   let expiry := rename expiry [("Expiry Date_1", "Expiry Date LP");
                                ("Expiry Date_2", "Expiry Date SD")] in
   let f_name :=
     ("Expiry_Dates_" ++ generate_time_string 1 ++ ".xls")%string in
   call (ToExcel expiry f_name) ;;
   call (ProcessWarningLog warnings warnings_to_process))%io.

(** The run of a computation from the empty trace. *)
Definition run {A} (m : M A) : outcome A * list event := m [].

(* ================================================================= *)
(** ** Vocabulary of the specification *)

(** [padDay] as the specification words it, on strings. *)
Definition padDay (dateText : string) : string :=
  if (String.length dateText =? 9)%nat then String "0" dateText else dateText.

Definition is_digit (c : ascii) : bool :=
  let n := nat_of_ascii c in ((48 <=? n) && (n <=? 57))%nat.

Definition is_slash (c : ascii) : bool := (c =? "/")%char.

(** The shape [DD/MM/YYYY]: two digits, a slash, two digits, a slash, four
    digits. *)
Definition is_ddmmyyyy (s : string) : bool :=
  match list_ascii_of_string s with
  | [d1; d2; s1; m1; m2; s2; y1; y2; y3; y4] =>
      forallb is_digit [d1; d2; m1; m2; y1; y2; y3; y4]
      && is_slash s1 && is_slash s2
  | _ => false
  end.

(** The shape [D/MM/YYYY]: a date whose day lacks its leading zero. *)
Definition is_dmmyyyy (s : string) : bool :=
  match list_ascii_of_string s with
  | [d1; s1; m1; m2; s2; y1; y2; y3; y4] =>
      forallb is_digit [d1; m1; m2; y1; y2; y3; y4]
      && is_slash s1 && is_slash s2
  | _ => false
  end.

Definition is_str (v : value) : bool :=
  match v with
  | VStr _ => true
  | _ => false
  end.

(** The text of field [i] of a row. *)
Definition field (student : list value) (i : nat) : string :=
  str (nth i student VNone).

(** A row has a string at each of the positions [positions]. *)
Definition strings_at (positions : list nat) (student : list value) : bool :=
  forallb (fun i => match nth_error student i with
                    | Some v => is_str v
                    | None => false
                    end) positions.

(** The field contract of a source: for each governed position, whether an
    empty field is an error or a warning, and the message it is reported
    with (the student ID follows the message). *)
Inductive severity : Type := IsError | IsWarning.

Definition severity_eqb (a b : severity) : bool :=
  match a, b with
  | IsError, IsError | IsWarning, IsWarning => true
  | _, _ => false
  end.

Record rule : Type := mkRule {
  position : nat;
  level : severity;
  message : string
}.

Definition edsd_contract : list rule :=
  [ mkRule 1 IsError "Course code is missing for student with Student ID ";
    mkRule 2 IsWarning "Tutor is missing for student with Student ID ";
    mkRule 3 IsError "Enrolment Date is missing for student with Student ID ";
    mkRule 4 IsError "Expiry Date is missing for student with Student ID " ].

Definition edlp_contract : list rule :=
  [ mkRule 1 IsWarning "Student Name is missing for student with Student ID ";
    mkRule 2 IsError "Course is missing for student with Student ID ";
    mkRule 3 IsError "Enrolment Date is missing for student with Student ID ";
    mkRule 4 IsError "Expiry Date is missing for student with Student ID " ].

(** A field is missing when it is null or the empty string. *)
Definition missing (student : list value) (i : nat) : bool :=
  in_none_empty (nth i student VNaN).

(** The messages of one severity that a contract gives for one row, and for
    all rows of a table in order. *)
Definition findings (contract : list rule) (s : severity)
  (student : list value) : list string :=
  flat_map (fun r =>
              if severity_eqb (level r) s && missing student (position r)
              then [(message r ++ str (nth 0 student VNaN))%string]
              else []) contract.

Definition report (contract : list rule) (s : severity)
  (rows : list (list value)) : list string :=
  flat_map (findings contract s) rows.

Definition some {A} (l : list A) : bool :=
  match l with
  | [] => false
  | _ :: _ => true
  end.

(** The calls a validator makes for a list of errors. *)
Definition error_log (name : string) (errors : list string) : list event :=
  if some errors then [ProcessErrorLog errors name] else [].

(** A learning-platform row on which the cleaner goes through: student ID
    and name are strings, the course-code extractor gives a string for the
    course label, and the date collaborator returns for both dates. *)
Definition lp_row_ok `{Collaborators} (student : list value) : bool :=
  strings_at [0; 1] student
  && match nth_error student 2, nth_error student 3, nth_error student 4 with
     | Some label, Some start, Some expiry =>
         match extract_course_code label,
               da_clean_date start, da_clean_date expiry with
         | Return (VStr _), Return _, Return _ => true
         | _, _, _ => false
         end
     | _, _, _ => false
     end.

(** The course code of a cleaned learning-platform row is the string
    ["Skip"]. *)
Definition is_skip (row : list value) : bool :=
  match nth_error row 2 with
  | Some (VStr code) => (code =? "Skip")%string
  | _ => false
  end.

(** A raw date that the student database writes day first with a two-digit
    month and a four-digit year. *)
Definition day_first (s : string) : bool := is_ddmmyyyy s || is_dmmyyyy s.

(** Modelled from the spec: the collaborators of [custtools], which is not
    part of the repository.  The date collaborator of the learning-platform
    cleaner is [formatFromTimestamp], that is [clean_date_2].  The
    course-code extractor is opaque in the specification; the scenarios
    below use course labels that are their own code.  Time strings are left
    empty. *)
Definition scenario : Collaborators :=
  {| extract_course_code := fun label => Return label;
     da_clean_date := fun date => Return (clean_date_2 date);
     generate_time_string := fun _ => "" |}.

(** The value of a row of a frame under a column label. *)
Definition value_at (cols : list string) (row : list value) (name : string)
  : value :=
  match index_of name cols with
  | Some i => nth i row VNaN
  | None => VNaN
  end.

(** A row cut down to the output columns. *)
Definition project (cols headings : list string) (row : list value)
  : list value :=
  map (value_at cols row) headings.

(** The two dates of a joined row differ. *)
Definition differs (cols : list string) (col_name : string)
  (row : list value) : bool :=
  ne (value_at cols row (col_name ++ "_1")) (value_at cols row (col_name ++ "_2")).

(** The rows of the right table that carry a given join key. *)
Definition partners (df_2 : DataFrame) (common : string) (k : value)
  : list (list value) :=
  filter (fun r => key_eq k (value_at (columns df_2) r common)) (data df_2).

(** A right row without its key column, and the null markers that stand in
    for it when a left row has no partner. *)
Definition without_key (df_2 : DataFrame) (common : string)
  (r : list value) : list value :=
  match index_of common (columns df_2) with
  | Some j => remove_at j r
  | None => r
  end.

Definition null_row (df_2 : DataFrame) : list value :=
  repeat VNaN (length (columns df_2) - 1).

(** The left join, row by row, as the specification words it: a left row
    without partner is kept once with null markers, a left row with partners
    gives one joined row per partner. *)
Definition fan_out (df_1 df_2 : DataFrame) (common : string)
  (l : list value) : list (list value) :=
  match partners df_2 common (value_at (columns df_1) l common) with
  | [] => [l ++ null_row df_2]
  | ms => map (fun r => l ++ without_key df_2 common r) ms
  end.

Fixpoint distinct (names : list string) : bool :=
  match names with
  | [] => true
  | n :: ns => negb (mem n ns) && distinct ns
  end.

Definition rectangular (df : DataFrame) : bool :=
  forallb (fun row => (length row =? length (columns df))%nat) (data df).

(** The inputs [compare_dates] is meant for: both tables are rectangular
    and have the join key, both have the date column, which is not the key,
    the labels of the join are distinct, and the output columns are labels
    of the join. *)
Definition compare_ok (df_1 df_2 : DataFrame) (common col_name : string)
  (headings : list string) : bool :=
  match merge_left df_1 df_2 common ("_1", "_2") with
  | Return joined =>
      rectangular df_1 && rectangular df_2
      && negb (col_name =? common)%string
      && mem col_name (columns df_1) && mem col_name (columns df_2)
      && distinct (columns joined)
      && forallb (fun h => mem h (columns joined)) headings
  | Raise _ => false
  end.

(** The column labels [process_enrolment_dates] gives its two frames and
    asks for in the comparison of start dates. *)
Definition lp_headings : list string :=
  ["StudentID"; "Student"; "Course"; "Start Date"; "Expiry Date"].
Definition sd_headings : list string :=
  ["StudentID"; "Course"; "Start Date"; "Expiry Date"].
Definition start_headings : list string :=
  ["StudentID"; "Student"; "Course_1"; "Start Date_1"; "Start Date_2"].

(** Two small cleaned tables: student 1001 agrees, 1002 disagrees, 1003 is
    known to the learning platform only, 1004 has two enrolments in the
    student database, one of which agrees. *)
Definition lp_table : DataFrame :=
  mkDataFrame lp_headings
    [[VStr "1001"; VStr "Ann"; VStr "ABC"; VStr "01/03/2020"; VStr "01/03/2021"];
     [VStr "1002"; VStr "Ben"; VStr "ABC"; VStr "05/03/2020"; VStr "05/03/2021"];
     [VStr "1003"; VStr "Cy"; VStr "XYZ"; VStr "07/03/2020"; VStr "07/03/2021"];
     [VStr "1004"; VStr "Di"; VStr "XYZ"; VStr "09/03/2020"; VStr "09/03/2021"]].

Definition sd_table : DataFrame :=
  mkDataFrame sd_headings
    [[VStr "1001"; VStr "ABC"; VStr "01/03/2020"; VStr "01/03/2021"];
     [VStr "1002"; VStr "ABC"; VStr "06/03/2020"; VStr "05/03/2021"];
     [VStr "1004"; VStr "XYZ"; VStr "09/03/2020"; VStr "09/03/2021"];
     [VStr "1004"; VStr "QRS"; VStr "10/10/2020"; VStr "10/10/2021"]].

(** A trace in which the warning log sink, whenever it is called, gets the
    header of the run alone and the flag [False]. *)
Definition header_only (e : event) : Prop :=
  match e with
  | ProcessWarningLog warnings to_process =>
      warnings = [dates_header] /\ to_process = false
  | _ => True
  end.

(** A computation keeps an invariant of the trace. *)
Definition keeps {A} (P : list event -> Prop) (m : M A) : Prop :=
  forall t, P t -> P (snd (m t)).

(** The characters of [s] at the given offsets exist and are digits. *)
Definition digits_at (offsets : list nat) (s : string) : bool :=
  forallb (fun i => match String.get i s with
                    | Some c => is_digit c
                    | None => false
                    end) offsets.

(** The offsets [clean_date_2] reads: year 0-3, month 5-6, day 8-9. *)
Definition date_offsets : list nat := [0; 1; 2; 3; 5; 6; 8; 9].

(** None of the four governed fields of a row is missing. *)
Definition complete (student : list value) : bool :=
  forallb (fun i => negb (missing student i)) [1; 2; 3; 4].

(** The last character of a string. *)
Fixpoint last_char (s : string) : option ascii :=
  match s with
  | EmptyString => None
  | String c EmptyString => Some c
  | String _ s' => last_char s'
  end.

(** A string neither begins nor ends with white space. *)
Definition trimmed (s : string) : bool :=
  match s, last_char s with
  | String c _, Some d => negb (is_space c) && negb (is_space d)
  | _, _ => true
  end.

(** A row of a file has a first field, and it is not empty. *)
Definition has_id (row : list string) : bool :=
  match row with
  | [] => false
  | id :: _ => negb (id =? "")%string
  end.

(** The rows of a file that [load_data] hands on. *)
Definition kept (file : list (list string)) : list (list value) :=
  map (map VStr) (filter has_id file).

(** The output columns of the comparison of expiry dates, and the labels
    of the join of the two frames of [process_enrolment_dates]. *)
Definition expiry_headings : list string :=
  ["StudentID"; "Student"; "Course_1"; "Expiry Date_1"; "Expiry Date_2"].
Definition joined_headings : list string :=
  ["StudentID"; "Student"; "Course_1"; "Start Date_1"; "Expiry Date_1";
   "Course_2"; "Start Date_2"; "Expiry Date_2"].

(** The frames [process_enrolment_dates] builds from cleaned rows. *)
Definition lp_frame (lp_data : list (list value)) : DataFrame :=
  mkDataFrame lp_headings lp_data.
Definition sd_frame (sd_data : list (list value)) : DataFrame :=
  mkDataFrame sd_headings sd_data.

(** A call other than an export. *)
Definition no_export (e : event) : Prop :=
  match e with
  | ToExcel _ _ => False
  | _ => True
  end.

(* ================================================================= *)
(** ** Properties of the date normaliser *)

Lemma clean_date_padDay (s : string) :
  clean_date (VStr s) = Return (VStr (padDay s)).
Proof.
  unfold clean_date, padDay; simpl.
  destruct (String.length s =? 9)%nat; reflexivity.
Qed.

Lemma clean_date_not_str (v : value) :
  is_str v = false -> clean_date v = Raise TypeError.
Proof. destruct v; simpl; intro H; try reflexivity; discriminate. Qed.

Lemma length_ascii_list (s : string) :
  length (list_ascii_of_string s) = String.length s.
Proof. induction s; simpl; congruence. Qed.

Lemma is_ddmmyyyy_length (s : string) :
  is_ddmmyyyy s = true -> String.length s = 10.
Proof.
  unfold is_ddmmyyyy; intro H; rewrite <- length_ascii_list.
  destruct (list_ascii_of_string s) as [|? [|? [|? [|? [|? [|? [|? [|? [|? [|? [|? ?]]]]]]]]]]];
    try discriminate; reflexivity.
Qed.

Lemma is_dmmyyyy_length (s : string) :
  is_dmmyyyy s = true -> String.length s = 9.
Proof.
  unfold is_dmmyyyy; intro H; rewrite <- length_ascii_list.
  destruct (list_ascii_of_string s) as [|? [|? [|? [|? [|? [|? [|? [|? [|? [|? ?]]]]]]]]]];
    try discriminate; reflexivity.
Qed.

Lemma padDay_ddmmyyyy (s : string) :
  is_ddmmyyyy s = true -> padDay s = s.
Proof.
  intro H; unfold padDay; rewrite (is_ddmmyyyy_length s H); reflexivity.
Qed.

Lemma padDay_dmmyyyy (s : string) :
  is_dmmyyyy s = true -> is_ddmmyyyy (padDay s) = true.
Proof.
  intro H; unfold padDay; rewrite (is_dmmyyyy_length s H); simpl.
  unfold is_dmmyyyy in H; unfold is_ddmmyyyy; simpl.
  destruct (list_ascii_of_string s) as [|? [|? [|? [|? [|? [|? [|? [|? [|? [|? ?]]]]]]]]]];
    try discriminate.
  simpl in *; exact H.
Qed.

(** C9.  [clean_date] puts a ['0'] in front of a string of exactly nine
    characters and returns every other string unchanged; in particular it is
    the identity on a well-formed [DD/MM/YYYY] string. *)
Theorem clean_date_pads_nine (s : string) :
  (String.length s = 9 -> clean_date (VStr s) = Return (VStr (String "0" s)))
  /\ (String.length s <> 9 -> clean_date (VStr s) = Return (VStr s))
  /\ (is_ddmmyyyy s = true -> clean_date (VStr s) = Return (VStr s)).
Proof.
  rewrite clean_date_padDay; unfold padDay; repeat split; intro H.
  - rewrite H; reflexivity.
  - apply Nat.eqb_neq in H; rewrite H; reflexivity.
  - rewrite (is_ddmmyyyy_length s H); reflexivity.
Qed.

Lemma clean_date_pads_nine_witness :
  (clean_date (VStr "5/03/2020") = Return (VStr "05/03/2020"))
  /\ (clean_date (VStr "5/3/2020") = Return (VStr "5/3/2020"))
  /\ (clean_date (VStr "05/03/2020") = Return (VStr "05/03/2020")).
Proof.
  split; [|split].
  - apply (proj1 (clean_date_pads_nine "5/03/2020")); reflexivity.
  - apply (proj1 (proj2 (clean_date_pads_nine "5/3/2020"))); simpl; lia.
  - apply (proj2 (proj2 (clean_date_pads_nine "05/03/2020"))); reflexivity.
Defined.

(** C10.  [clean_date] is idempotent: on every string it returns a string on
    which a second call changes nothing, and on every other value both the
    single and the double call raise alike. *)
Theorem clean_date_idempotent (v : value) :
  obind (clean_date v) clean_date = clean_date v
  /\ forall s, v = VStr s ->
       exists s', clean_date v = Return (VStr s')
                  /\ clean_date (VStr s') = Return (VStr s').
Proof.
  assert (P : forall s, padDay (padDay s) = padDay s).
  { intro s; unfold padDay.
    destruct (String.length s =? 9)%nat eqn:E; [|rewrite E; reflexivity].
    apply Nat.eqb_eq in E; simpl; rewrite E; reflexivity. }
  split.
  - destruct v as [|s|]; try reflexivity.
    rewrite clean_date_padDay; simpl; rewrite clean_date_padDay, P; reflexivity.
  - intros s ->; exists (padDay s).
    rewrite !clean_date_padDay, P; split; reflexivity.
Qed.

Lemma clean_date_idempotent_witness :
  exists s', clean_date (VStr "5/03/2020") = Return (VStr s')
             /\ clean_date (VStr s') = Return (VStr s').
Proof.
  exact (proj2 (clean_date_idempotent (VStr "5/03/2020")) "5/03/2020" eq_refl).
Defined.

(** C8.  On a value whose string form begins [YYYY-MM-DD], [clean_date_2]
    returns characters 8-9, a slash, characters 5-6, a slash and characters
    0-3 of that string; [clean_date_2("2020-03-05T00:00:00")] is
    ["05/03/2020"]. *)
Theorem clean_date_2_iso (v : value) (year month day rest : string) :
  String.length year = 4 -> String.length month = 2 -> String.length day = 2 ->
  str v = (year ++ "-" ++ month ++ "-" ++ day ++ rest)%string ->
  clean_date_2 v = VStr (day ++ "/" ++ month ++ "/" ++ year)%string
  /\ day = substring 8 2 (str v)
  /\ month = substring 5 2 (str v)
  /\ year = substring 0 4 (str v)
  /\ clean_date_2 (VStr "2020-03-05T00:00:00") = VStr "05/03/2020".
Proof.
  intros Hy Hm Hd Hs.
  destruct year as [|y1 [|y2 [|y3 [|y4 [|? ?]]]]]; try discriminate.
  destruct month as [|m1 [|m2 [|? ?]]]; try discriminate.
  destruct day as [|d1 [|d2 [|? ?]]]; try discriminate.
  unfold clean_date_2; rewrite Hs; simpl.
  assert (E : forall r, substring 0 0 r = EmptyString) by (intros [|? ?]; reflexivity).
  rewrite !E; repeat split; reflexivity.
Qed.

Lemma clean_date_2_iso_witness :
  clean_date_2 (VStr "2020-03-01T09:30:00") = VStr "01/03/2020".
Proof.
  exact (proj1 (clean_date_2_iso (VStr "2020-03-01T09:30:00")
                  "2020" "03" "01" "T09:30:00"
                  eq_refl eq_refl eq_refl eq_refl)).
Defined.

(* ================================================================= *)
(** ** Loops that append *)

Lemma for_each_app {A B} (body : A -> list B -> outcome (list B))
  (g : A -> list B) (xs : list A) :
  (forall x acc, In x xs -> body x acc = Return (acc ++ g x)) ->
  forall acc, for_each body xs acc = Return (acc ++ flat_map g xs).
Proof.
  induction xs as [|x xs IH]; intros Hb acc; simpl.
  - rewrite app_nil_r; reflexivity.
  - rewrite Hb by (left; reflexivity); simpl.
    rewrite IH by (intros; apply Hb; right; assumption).
    rewrite app_assoc; reflexivity.
Qed.

Lemma for_each_app2 {A B C}
  (body : A -> list B * list C -> outcome (list B * list C))
  (g : A -> list B) (h : A -> list C) (xs : list A) :
  (forall x e w, In x xs -> body x (e, w) = Return (e ++ g x, w ++ h x)) ->
  forall e w,
    for_each body xs (e, w) = Return (e ++ flat_map g xs, w ++ flat_map h xs).
Proof.
  induction xs as [|x xs IH]; intros Hb e w; simpl.
  - rewrite !app_nil_r; reflexivity.
  - rewrite Hb by (left; reflexivity); simpl.
    rewrite IH by (intros; apply Hb; right; assumption).
    rewrite !app_assoc; reflexivity.
Qed.

(* ================================================================= *)
(** ** Properties of the validators *)

Lemma five_fields (student : list value) :
  5 <= length student ->
  exists a b c d e rest, student = a :: b :: c :: d :: e :: rest.
Proof.
  destruct student as [|a [|b [|c [|d [|e rest]]]]]; simpl; intro H; try lia.
  repeat eexists.
Qed.

Ltac split_missing :=
  repeat match goal with
         | |- context [in_none_empty ?v] => destruct (in_none_empty v)
         end.

Lemma check_edsd_student_findings (student : list value) (e w : list string) :
  5 <= length student ->
  check_edsd_student student (e, w)
  = Return (e ++ findings edsd_contract IsError student,
            w ++ findings edsd_contract IsWarning student).
Proof.
  intro H; destruct (five_fields student H) as (a & b & c & d & f & rest & ->).
  unfold check_edsd_student, append_if_missing, findings, missing; simpl.
  split_missing; simpl; rewrite <- ?app_assoc, ?app_nil_r; reflexivity.
Qed.

Lemma check_edlp_student_findings (student : list value) (e w : list string) :
  5 <= length student ->
  check_edlp_student student (e, w)
  = Return (e ++ findings edlp_contract IsError student,
            w ++ findings edlp_contract IsWarning student).
Proof.
  intro H; destruct (five_fields student H) as (a & b & c & d & f & rest & ->).
  unfold check_edlp_student, append_if_missing, findings, missing; simpl.
  split_missing; simpl; rewrite <- ?app_assoc, ?app_nil_r; reflexivity.
Qed.

Lemma some_length {A} (l : list A) : (0 <? length l)%nat = some l.
Proof. destruct l; reflexivity. Qed.

Lemma check_edsd_run (rows : list (list value)) (t : list event) :
  Forall (fun student => 5 <= length student) rows ->
  check_edsd rows t
  = (Return (some (report edsd_contract IsWarning rows),
             edsd_header :: report edsd_contract IsWarning rows),
     t ++ error_log edsd_report (report edsd_contract IsError rows)).
Proof.
  intro H; unfold check_edsd, bind, lift.
  rewrite (for_each_app2 _ (findings edsd_contract IsError)
             (findings edsd_contract IsWarning)).
  2:{ intros x e w Hx; apply check_edsd_student_findings.
      rewrite Forall_forall in H; apply H; assumption. }
  fold (report edsd_contract IsError rows) (report edsd_contract IsWarning rows).
  simpl app; rewrite some_length; unfold error_log.
  destruct (report edsd_contract IsError rows) as [|m ms]; simpl;
    unfold call, ret; rewrite ?app_nil_r;
    destruct (report edsd_contract IsWarning rows); reflexivity.
Qed.

Lemma check_edlp_run (rows : list (list value)) (t : list event) :
  Forall (fun student => 5 <= length student) rows ->
  check_edlp rows t
  = (Return (some (report edlp_contract IsWarning rows),
             edlp_header :: report edlp_contract IsWarning rows),
     t ++ error_log edlp_report (report edlp_contract IsError rows)).
Proof.
  intro H; unfold check_edlp, bind, lift.
  rewrite (for_each_app2 _ (findings edlp_contract IsError)
             (findings edlp_contract IsWarning)).
  2:{ intros x e w Hx; apply check_edlp_student_findings.
      rewrite Forall_forall in H; apply H; assumption. }
  fold (report edlp_contract IsError rows) (report edlp_contract IsWarning rows).
  simpl app; rewrite some_length; unfold error_log.
  destruct (report edlp_contract IsError rows) as [|m ms]; simpl;
    unfold call, ret; rewrite ?app_nil_r;
    destruct (report edlp_contract IsWarning rows); reflexivity.
Qed.

Lemma some_report_warning (contract : list rule) (i : nat)
  (rows : list (list value)) :
  (forall student,
      some (findings contract IsWarning student) = missing student i) ->
  some (report contract IsWarning rows)
  = existsb (fun student => missing student i) rows.
Proof.
  intro H; unfold report; induction rows as [|r rows IH]; simpl; [reflexivity|].
  rewrite <- H, <- IH.
  destruct (findings contract IsWarning r); reflexivity.
Qed.

(** C5.  On rows of five fields the validators classify null-or-empty
    fields by the contract of their source: for the student database Course,
    Enrolment Date and Expiry Date are errors and Tutor is a warning; for the
    learning platform Student Name is a warning and Course, Enrolment Date
    and Expiry Date are errors.  Each returns the warnings behind their
    header, with a flag that is true exactly when a warning follows the
    header.  A student-database row without course gives one error and no
    warning, a learning-platform row without name one warning and no
    error. *)
Theorem validators_follow_contract (rows : list (list value)) :
  Forall (fun student => 5 <= length student) rows ->
  run (check_edsd rows)
  = (Return (existsb (fun student => missing student 2) rows,
             edsd_header :: report edsd_contract IsWarning rows),
     error_log edsd_report (report edsd_contract IsError rows))
  /\ run (check_edlp rows)
     = (Return (existsb (fun student => missing student 1) rows,
                edlp_header :: report edlp_contract IsWarning rows),
        error_log edlp_report (report edlp_contract IsError rows))
  /\ run (check_edsd
            [[VStr "1"; VStr ""; VStr "T"; VStr "1/1/2020"; VStr "1/1/2021"]])
     = (Return (false, [edsd_header]),
        [ProcessErrorLog
           ["Course code is missing for student with Student ID 1"]
           edsd_report])
  /\ run (check_edlp
            [[VStr "1"; VStr ""; VStr "C"; VStr "1/1/2020"; VStr "1/1/2021"]])
     = (Return (true,
                [edlp_header;
                 "Student Name is missing for student with Student ID 1"]),
        []).
Proof.
  intro H; unfold run.
  rewrite check_edsd_run, check_edlp_run by assumption.
  rewrite (some_report_warning edsd_contract 2),
          (some_report_warning edlp_contract 1).
  - repeat split; reflexivity.
  - intro student; unfold findings, missing; simpl.
    destruct (in_none_empty (nth 1 student VNaN)); reflexivity.
  - intro student; unfold findings, missing; simpl.
    destruct (in_none_empty (nth 2 student VNaN)); reflexivity.
Qed.

Lemma validators_follow_contract_witness :
  run (check_edsd
         [[VStr "7"; VStr "C"; VNone; VStr ""; VStr "1/01/2021"];
          [VStr "8"; VNone; VStr "T"; VStr "2/01/2020"; VStr "2/01/2021"]])
  = (Return (true,
             [edsd_header; "Tutor is missing for student with Student ID 7"]),
     [ProcessErrorLog
        ["Enrolment Date is missing for student with Student ID 7";
         "Course code is missing for student with Student ID 8"]
        edsd_report]).
Proof.
  refine (proj1 (validators_follow_contract
                   [[VStr "7"; VStr "C"; VNone; VStr ""; VStr "1/01/2021"];
                    [VStr "8"; VNone; VStr "T"; VStr "2/01/2020";
                     VStr "2/01/2021"]] _)).
  repeat constructor.
Defined.

(** C6.  On rows of five fields each validator returns normally, and it
    calls the error-log sink exactly when the pass collected an error: once,
    with the collected errors and the report name of its source. *)
Theorem validators_log_errors (rows : list (list value)) (t : list event) :
  Forall (fun student => 5 <= length student) rows ->
  (exists result,
      check_edsd rows t
      = (Return result,
         t ++ match report edsd_contract IsError rows with
              | [] => []
              | errors => [ProcessErrorLog errors edsd_report]
              end))
  /\ (exists result,
         check_edlp rows t
         = (Return result,
            t ++ match report edlp_contract IsError rows with
                 | [] => []
                 | errors => [ProcessErrorLog errors edlp_report]
                 end)).
Proof.
  intro H; rewrite check_edsd_run, check_edlp_run by assumption.
  unfold error_log; split; eexists.
  - destruct (report edsd_contract IsError rows); reflexivity.
  - destruct (report edlp_contract IsError rows); reflexivity.
Qed.

Lemma validators_log_errors_witness :
  exists result,
    check_edlp [[VStr "9"; VStr "N"; VStr ""; VStr "d"; VNone]] []
    = (Return result,
       [ProcessErrorLog
          ["Course is missing for student with Student ID 9";
           "Expiry Date is missing for student with Student ID 9"]
          edlp_report]).
Proof.
  refine (proj2 (validators_log_errors
                   [[VStr "9"; VStr "N"; VStr ""; VStr "d"; VNone]] [] _)).
  repeat constructor.
Defined.

(** A row that lacks a governed field is outside the contract: the lookup
    raises and nothing is logged. *)
Example check_edsd_short_row :
  run (check_edsd [[VStr "1"; VStr ""; VStr "T"]]) = (Raise IndexError, []).
Proof. reflexivity. Qed.

(* ================================================================= *)
(** ** Properties of the cleaners *)

Lemma for_each_collect {A B} (f : A -> outcome B) (xs : list A)
  (rows : list B) :
  Forall2 (fun x r => f x = Return r) xs rows ->
  forall acc,
    for_each (fun x acc => (r <- f x ;; Return (acc ++ [r]))%py) xs acc
    = Return (acc ++ rows).
Proof.
  induction 1 as [|x r xs rows Hx _ IH]; intro acc; simpl.
  - rewrite app_nil_r; reflexivity.
  - rewrite Hx; simpl; rewrite IH, <- app_assoc; reflexivity.
Qed.

Lemma remove_students_filter (students : list (list value)) (location : nat)
  (identifier : value) :
  Forall (fun row => location < length row) students ->
  remove_students students location identifier
  = Return (filter (fun row => ne (nth location row VNaN) identifier) students).
Proof.
  intro H; unfold remove_students.
  rewrite (for_each_app _
             (fun row => if ne (nth location row VNaN) identifier
                         then [row] else [])).
  - simpl; f_equal; clear H.
    induction students as [|r rs IH]; simpl; [reflexivity|].
    destruct (ne (nth location r VNaN) identifier); simpl; congruence.
  - intros row acc Hin; rewrite Forall_forall in H; specialize (H row Hin).
    unfold getitem.
    destruct (nth_error row location) as [v|] eqn:E.
    + rewrite (nth_error_nth _ _ VNaN E); simpl.
      destruct (ne v identifier); [reflexivity | rewrite app_nil_r; reflexivity].
    + apply nth_error_None in E; lia.
Qed.

Lemma clean_lp_student_ok `{Collaborators} (student : list value) :
  lp_row_ok student = true ->
  exists sid name code start expiry,
    clean_lp_student student
    = Return [VStr sid; VStr name; VStr code; start; expiry].
Proof.
  unfold lp_row_ok, strings_at, clean_lp_student, stripped, getitem; simpl.
  destruct student as [|a [|b [|c [|d [|e rest]]]]]; simpl;
    try (rewrite ?andb_false_r; discriminate);
    try (destruct a; discriminate);
    try (destruct a, b; discriminate).
  destruct a as [|sid|], b as [|name|]; simpl; try discriminate.
  destruct (extract_course_code c) as [[|code|]|]; simpl; try discriminate.
  destruct (da_clean_date d) as [start|]; simpl; try discriminate.
  destruct (da_clean_date e) as [expiry|]; simpl; try discriminate.
  intros _; repeat eexists.
Qed.

Lemma clean_lp_students_ok `{Collaborators} (raw_data : list (list value)) :
  Forall (fun student => lp_row_ok student = true) raw_data ->
  exists cleaned,
    Forall2 (fun student row => clean_lp_student student = Return row)
      raw_data cleaned
    /\ Forall (fun row => exists a b code d e, row = [a; b; VStr code; d; e])
         cleaned.
Proof.
  induction 1 as [|student raw Hs _ (cleaned & H2 & Hc)].
  - exists []; split; constructor.
  - destruct (clean_lp_student_ok student Hs)
      as (sid & name & code & start & expiry & E).
    eexists (_ :: cleaned); split; constructor; eauto.
    repeat eexists.
Qed.

(** C7.  On learning-platform rows that the cleaner goes through,
    [clean_lp_data] returns the cleaned rows, one per raw row, without those
    whose course code (index 2) is exactly the string ["Skip"]; the others
    stay as they are and in the order of the input. *)
Theorem clean_lp_data_drops_skip `{Collaborators}
  (raw_data : list (list value)) :
  Forall (fun student => lp_row_ok student = true) raw_data ->
  exists cleaned,
    Forall2 (fun student row => clean_lp_student student = Return row)
      raw_data cleaned
    /\ clean_lp_data raw_data
       = Return (filter (fun row => negb (is_skip row)) cleaned)
    /\ forall row,
         is_skip row = true <-> nth_error row 2 = Some (VStr "Skip").
Proof.
  intro H0; destruct (clean_lp_students_ok raw_data H0) as (cleaned & H2 & Hc).
  exists cleaned; split; [assumption|]; split.
  - unfold clean_lp_data.
    rewrite (for_each_collect clean_lp_student raw_data cleaned H2); simpl.
    rewrite remove_students_filter.
    + f_equal; apply filter_ext_in; intros row Hin.
      rewrite Forall_forall in Hc.
      destruct (Hc row Hin) as (a & b & code & d & e & ->); reflexivity.
    + eapply Forall_impl; [|exact Hc].
      intros row (a & b & code & d & e & ->); simpl; lia.
  - intro row; unfold is_skip.
    destruct (nth_error row 2) as [[|code|]|]; split; intro E;
      try discriminate.
    + apply String.eqb_eq in E; subst; reflexivity.
    + injection E as ->; reflexivity.
Qed.

Lemma clean_lp_data_drops_skip_witness :
  let raw_data :=
    [[VStr "1"; VStr "A"; VStr " Skip "; VStr "2020-03-01T00:00:00";
      VStr "2021-03-01T00:00:00"];
     [VStr "2"; VStr "B"; VStr "skip"; VStr "2020-04-01T00:00:00";
      VStr "2021-04-01T00:00:00"];
     [VStr "2"; VStr "B"; VStr "skip"; VStr "2020-04-01T00:00:00";
      VStr "2021-04-01T00:00:00"]] in
  exists cleaned,
    Forall2 (fun student row =>
               @clean_lp_student scenario student = Return row)
      raw_data cleaned
    /\ @clean_lp_data scenario raw_data
       = Return (filter (fun row => negb (is_skip row)) cleaned)
    /\ forall row,
         is_skip row = true <-> nth_error row 2 = Some (VStr "Skip").
Proof.
  intro raw_data; apply (@clean_lp_data_drops_skip scenario raw_data).
  repeat constructor.
Defined.

Lemma clean_sd_student_ok (student : list value) :
  strings_at [0; 1; 3; 4] student = true ->
  clean_sd_student student
  = Return [VStr (strip_str (field student 0));
            VStr (strip_str (field student 1));
            VStr (padDay (field student 3));
            VStr (padDay (field student 4))].
Proof.
  unfold strings_at, clean_sd_student, stripped, getitem, field; simpl.
  destruct student as [|a [|b [|c [|d [|e rest]]]]]; simpl;
    try (rewrite ?andb_false_r; discriminate);
    try (destruct a; discriminate);
    try (destruct a, b; discriminate);
    try (destruct a, b, d; discriminate).
  destruct a as [|sid|], b as [|course|], d as [|start|], e as [|expiry|];
    simpl; try discriminate.
  intros _; rewrite !clean_date_padDay; reflexivity.
Qed.

(** C1, as amended.  For student-database rows whose student ID, course and
    two date fields are strings, [clean_sd_data] returns one cleaned row per
    raw row, and in it the start and expiry date match [DD/MM/YYYY] whenever
    the raw date is written day first as [DD/MM/YYYY] or [D/MM/YYYY], and
    are empty whenever the raw date is empty. *)
Theorem clean_sd_data_dates (raw_data : list (list value)) :
  Forall (fun student => strings_at [0; 1; 3; 4] student = true) raw_data ->
  exists cleaned,
    clean_sd_data raw_data = Return cleaned
    /\ Forall2
         (fun student row =>
            exists sid course start expiry,
              row = [VStr sid; VStr course; VStr start; VStr expiry]
              /\ (day_first (field student 3) = true ->
                  is_ddmmyyyy start = true)
              /\ (day_first (field student 4) = true ->
                  is_ddmmyyyy expiry = true)
              /\ (field student 3 = "" -> start = "")
              /\ (field student 4 = "" -> expiry = ""))
         raw_data cleaned.
Proof.
  intro H0.
  assert (P : forall s, (day_first s = true -> is_ddmmyyyy (padDay s) = true)
                        /\ (s = "" -> padDay s = "")).
  { intro s; split.
    - unfold day_first; intro D; apply orb_true_iff in D as [D|D].
      + rewrite padDay_ddmmyyyy; assumption.
      + apply padDay_dmmyyyy; assumption.
    - intros ->; reflexivity. }
  pose (row_of := fun student =>
                    [VStr (strip_str (field student 0));
                     VStr (strip_str (field student 1));
                     VStr (padDay (field student 3));
                     VStr (padDay (field student 4))]).
  exists (map row_of raw_data); split.
  - unfold clean_sd_data.
    rewrite (for_each_collect clean_sd_student raw_data (map row_of raw_data));
      [reflexivity|].
    induction H0; simpl; constructor; auto using clean_sd_student_ok.
  - clear H0; induction raw_data as [|student raw IH]; simpl; constructor;
      [|exact IH].
    do 4 eexists; split; [reflexivity|].
    destruct (P (field student 3)), (P (field student 4)); auto.
Qed.

Lemma clean_sd_data_dates_witness :
  exists cleaned,
    clean_sd_data
      [[VStr " 1001 "; VStr "ABC"; VStr "T"; VStr "1/03/2020"; VStr ""]]
    = Return cleaned
    /\ Forall2
         (fun student row =>
            exists sid course start expiry,
              row = [VStr sid; VStr course; VStr start; VStr expiry]
              /\ (day_first (field student 3) = true ->
                  is_ddmmyyyy start = true)
              /\ (day_first (field student 4) = true ->
                  is_ddmmyyyy expiry = true)
              /\ (field student 3 = "" -> start = "")
              /\ (field student 4 = "" -> expiry = ""))
         [[VStr " 1001 "; VStr "ABC"; VStr "T"; VStr "1/03/2020"; VStr ""]]
         cleaned.
Proof.
  apply (clean_sd_data_dates
           [[VStr " 1001 "; VStr "ABC"; VStr "T"; VStr "1/03/2020"; VStr ""]]).
  repeat constructor.
Defined.

(** C1, as stated, fails: the cleaner does not parse dates, so a non-empty
    date in another notation is returned as it came and does not match
    [DD/MM/YYYY]. *)
Lemma clean_sd_data_keeps_other_notation :
  clean_sd_data
    [[VStr "1001"; VStr "ABC"; VStr "T"; VStr "2020-03-01"; VStr "1 Mar 2021"]]
  = Return [[VStr "1001"; VStr "ABC"; VStr "2020-03-01"; VStr "1 Mar 2021"]]
  /\ "2020-03-01" <> "" /\ "1 Mar 2021" <> ""
  /\ is_ddmmyyyy "2020-03-01" = false
  /\ is_ddmmyyyy "1 Mar 2021" = false.
Proof. repeat split; try reflexivity; discriminate. Qed.

(* ================================================================= *)
(** ** Properties of the reconciliation engine *)

Lemma mem_In (name : string) (cols : list string) :
  mem name cols = true <-> In name cols.
Proof.
  unfold mem; rewrite existsb_exists; split.
  - intros (x & Hx & E); apply String.eqb_eq in E; subst; assumption.
  - intro H; exists name; split; [assumption | apply String.eqb_refl].
Qed.

Lemma distinct_NoDup (names : list string) :
  distinct names = true -> NoDup names.
Proof.
  induction names as [|n ns IH]; simpl; intro H; constructor;
    apply andb_true_iff in H as [H1 H2]; auto.
  intro Hin; apply mem_In in Hin; rewrite Hin in H1; discriminate.
Qed.

Lemma NoDup_app_disjoint {A} (a b : list A) (x : A) :
  NoDup (a ++ b) -> In x b -> ~ In x a.
Proof.
  induction a as [|y a IH]; simpl; intros H Hb Ha; [assumption|].
  inversion H as [|? ? Hy Hn]; subst.
  destruct Ha as [->|Ha]; [|exact (IH Hn Hb Ha)].
  apply Hy, in_or_app; right; assumption.
Qed.

Lemma index_of_In (name : string) (cols : list string) :
  In name cols -> exists i, index_of name cols = Some i /\ i < length cols.
Proof.
  induction cols as [|c cs IH]; simpl; intro H; [contradiction|].
  destruct (c =? name)%string eqn:E.
  - exists 0; split; [reflexivity | lia].
  - destruct H as [->|H]; [rewrite String.eqb_refl in E; discriminate|].
    destruct (IH H) as (i & -> & Hi); exists (S i); split;
      [reflexivity | lia].
Qed.

Lemma index_of_nth (name : string) (cols : list string) (i : nat) :
  index_of name cols = Some i -> nth_error cols i = Some name.
Proof.
  revert i; induction cols as [|c cs IH]; simpl; intros i H; [discriminate|].
  destruct (c =? name)%string eqn:E.
  - injection H as <-; apply String.eqb_eq in E; subst; reflexivity.
  - destruct (index_of name cs) as [k|]; [|discriminate].
    injection H as <-; simpl; apply IH; reflexivity.
Qed.

Lemma index_of_app_r (name : string) (a b : list string) :
  ~ In name a ->
  index_of name (a ++ b) = option_map (Nat.add (length a)) (index_of name b).
Proof.
  induction a as [|c a IH]; simpl; intro H.
  - destruct (index_of name b); reflexivity.
  - destruct (c =? name)%string eqn:E.
    + apply String.eqb_eq in E; subst; exfalso; apply H; left; reflexivity.
    + rewrite IH by (intro; apply H; right; assumption).
      destruct (index_of name b); reflexivity.
Qed.

Lemma loc_value_at (cols : list string) (row : list value) (name : string) :
  In name cols -> loc cols row name = Return (value_at cols row name).
Proof.
  intro H; unfold loc, value_at.
  destruct (index_of_In name cols H) as (i & -> & _); reflexivity.
Qed.

Lemma loc_list_project (cols : list string) (row : list value)
  (headings : list string) :
  Forall (fun h => In h cols) headings ->
  loc_list cols row headings = Return (project cols headings row).
Proof.
  induction 1 as [|h hs Hh _ IH]; simpl; [reflexivity|].
  rewrite (loc_value_at cols row h Hh), IH; reflexivity.
Qed.

Lemma remove_at_keeps {A} (l : list A) (j p : nat) (x : A) :
  nth_error l p = Some x -> p <> j -> In x (remove_at j l).
Proof.
  revert j p; induction l as [|y l IH]; intros j p H Hp.
  - destruct p; discriminate.
  - destruct j as [|j], p as [|p]; simpl in *.
    + contradiction.
    + eapply nth_error_In; eassumption.
    + injection H as ->; left; reflexivity.
    + right; eapply IH; [eassumption | lia].
Qed.

Lemma flat_map_filter {A B} (p : A -> bool) (f : A -> B) (xs : list A) :
  flat_map (fun x => if p x then [f x] else []) xs = map f (filter p xs).
Proof.
  induction xs as [|x xs IH]; simpl; [reflexivity|].
  destruct (p x); simpl; congruence.
Qed.

Lemma suffixed_overlap (cols other : list string) (on suffix c : string)
  (p : nat) :
  nth_error cols p = Some c -> (c =? on)%string = false ->
  mem c other = true ->
  nth_error (suffixed cols other on suffix) p = Some (c ++ suffix)%string.
Proof.
  intros Hp Hc Hm; unfold suffixed.
  rewrite nth_error_map, Hp; simpl; rewrite Hc, Hm; reflexivity.
Qed.

Lemma join_row_fan_out (df_1 df_2 : DataFrame) (common : string) (i j : nat)
  (l : list value) :
  index_of common (columns df_1) = Some i ->
  index_of common (columns df_2) = Some j ->
  join_row i j (length (columns df_2)) (data df_2) l
  = fan_out df_1 df_2 common l.
Proof.
  intros Hi Hj.
  unfold join_row, fan_out, matches, partners, without_key, null_row, value_at.
  rewrite Hi, Hj; reflexivity.
Qed.

Lemma merge_left_fan_out (df_1 df_2 joined : DataFrame) (common : string)
  (suffixes : string * string) :
  merge_left df_1 df_2 common suffixes = Return joined ->
  data joined = flat_map (fan_out df_1 df_2 common) (data df_1).
Proof.
  unfold merge_left.
  destruct (index_of common (columns df_1)) as [i|] eqn:Hi; [|discriminate].
  destruct (index_of common (columns df_2)) as [j|] eqn:Hj; [|discriminate].
  intro E; injection E as <-; simpl.
  apply flat_map_ext; intro l; apply join_row_fan_out; assumption.
Qed.

Lemma fan_out_keeps (df_1 df_2 : DataFrame) (common : string)
  (l : list value) :
  exists rest, In (l ++ rest) (fan_out df_1 df_2 common l).
Proof.
  unfold fan_out.
  destruct (partners df_2 common (value_at (columns df_1) l common)) as [|r ms].
  - eexists; left; reflexivity.
  - eexists; left; reflexivity.
Qed.

(** The labels of the two date columns in the join. *)
Lemma merge_left_date_columns (df_1 df_2 joined : DataFrame)
  (common col_name : string) :
  merge_left df_1 df_2 common ("_1", "_2") = Return joined ->
  (col_name =? common)%string = false ->
  In col_name (columns df_1) -> In col_name (columns df_2) ->
  exists right_cols,
    columns joined
    = suffixed (columns df_1) (columns df_2) common "_1" ++ right_cols
    /\ In (col_name ++ "_1")%string
         (suffixed (columns df_1) (columns df_2) common "_1")
    /\ In (col_name ++ "_2")%string right_cols.
Proof.
  unfold merge_left.
  destruct (index_of common (columns df_1)) as [i|] eqn:Hi; [|discriminate].
  destruct (index_of common (columns df_2)) as [j|] eqn:Hj; [|discriminate].
  intros E Hc H1 H2; injection E as <-; simpl.
  eexists; split; [reflexivity|]; split.
  - destruct (In_nth_error _ _ H1) as (p & Hp).
    eapply nth_error_In, suffixed_overlap; eauto.
    apply mem_In; assumption.
  - destruct (In_nth_error _ _ H2) as (p & Hp).
    eapply remove_at_keeps.
    + eapply suffixed_overlap; eauto. apply mem_In; assumption.
    + intros ->. apply index_of_nth in Hj. rewrite Hj in Hp.
      injection Hp as ->. rewrite String.eqb_refl in Hc; discriminate.
Qed.

Lemma suffixed_length (cols other : list string) (on suffix : string) :
  length (suffixed cols other on suffix) = length cols.
Proof. apply length_map. Qed.

Lemma value_at_null (left_cols right_cols : list string) (l : list value)
  (k : nat) (name : string) :
  length l = length left_cols ->
  NoDup (left_cols ++ right_cols) -> In name right_cols ->
  value_at (left_cols ++ right_cols) (l ++ repeat VNaN k) name = VNaN.
Proof.
  intros Hl Hn Hin; unfold value_at.
  rewrite index_of_app_r by (eapply NoDup_app_disjoint; eassumption).
  destruct (index_of_In name right_cols Hin) as (m & -> & _); simpl.
  rewrite <- Hl, app_nth2_plus; apply nth_repeat.
Qed.

Lemma filter_none {A} (p : A -> bool) (xs : list A) :
  (forall x, In x xs -> p x = false) -> filter p xs = [].
Proof.
  induction xs as [|x xs IH]; simpl; intro H; [reflexivity|].
  rewrite (H x) by (left; reflexivity).
  apply IH; intros; apply H; right; assumption.
Qed.

Lemma compare_rows_differing (cols : list string) (col_name : string)
  (headings : list string) (rows : list (list value)) :
  In (col_name ++ "_1")%string cols -> In (col_name ++ "_2")%string cols ->
  Forall (fun h => In h cols) headings ->
  for_each (compare_row cols col_name headings) rows []
  = Return (map (project cols headings) (filter (differs cols col_name) rows)).
Proof.
  intros H1 H2 Hh.
  rewrite (for_each_app _
             (fun row => if differs cols col_name row
                         then [project cols headings row] else [])).
  - simpl; rewrite flat_map_filter; reflexivity.
  - intros row acc _; unfold compare_row, differs.
    rewrite (loc_value_at cols row _ H1), (loc_value_at cols row _ H2); simpl.
    destruct (ne _ _); [|rewrite app_nil_r; reflexivity].
    rewrite (loc_list_project cols row headings Hh); reflexivity.
Qed.

(** C4.  On inputs it is meant for, [compare_dates] returns, under the
    output columns and in the order of the join, exactly the rows of the left
    join whose two dates differ.  In that join every left row appears, a left
    row without partner is kept once with null markers on the right, and a
    left row with partners gives one row per partner.  Two dates differ when
    they are unequal strings, and a null marker differs from everything.
    When no pair of dates differs the result is empty; a left-only student is
    always in the result, with a null right-hand date. *)
Theorem compare_dates_reports_differences (df_1 df_2 : DataFrame)
  (common col_name : string) (headings : list string) :
  compare_ok df_1 df_2 common col_name headings = true ->
  exists joined result,
    merge_left df_1 df_2 common ("_1", "_2") = Return joined
    /\ compare_dates df_1 df_2 common col_name headings = Return result
    /\ data joined = flat_map (fan_out df_1 df_2 common) (data df_1)
    /\ (forall l, In l (data df_1) ->
                  exists rest, In (l ++ rest) (data joined))
    /\ columns result = headings
    /\ data result
       = map (project (columns joined) headings)
           (filter (differs (columns joined) col_name) (data joined))
    /\ (forall a b, ne (VStr a) (VStr b) = true <-> a <> b)
    /\ (forall v, ne v VNaN = true /\ ne VNaN v = true)
    /\ ((forall row, In row (data joined) ->
                     differs (columns joined) col_name row = false) ->
        data result = [])
    /\ (forall l,
           In l (data df_1) ->
           partners df_2 common (value_at (columns df_1) l common) = [] ->
           value_at (columns joined) (l ++ null_row df_2) (col_name ++ "_2")
           = VNaN
           /\ In (project (columns joined) headings (l ++ null_row df_2))
                (data result)).
Proof.
  unfold compare_ok.
  destruct (merge_left df_1 df_2 common ("_1", "_2")) as [joined|] eqn:EM;
    [|discriminate].
  intro H; repeat (apply andb_true_iff in H as [H ?]).
  rename H into R1, H0 into Hh, H1 into Hd, H2 into M2, H3 into M1,
    H4 into Hc, H5 into R2.
  apply negb_true_iff in Hc. apply mem_In in M1, M2.
  apply distinct_NoDup in Hd.
  assert (Hh' : Forall (fun h => In h (columns joined)) headings).
  { apply Forall_forall; intros h Hin. apply mem_In.
    rewrite forallb_forall in Hh; auto. }
  destruct (merge_left_date_columns _ _ _ _ _ EM Hc M1 M2)
    as (right_cols & Ecols & In1 & In2).
  assert (I1 : In (col_name ++ "_1")%string (columns joined))
    by (rewrite Ecols; apply in_or_app; left; assumption).
  assert (I2 : In (col_name ++ "_2")%string (columns joined))
    by (rewrite Ecols; apply in_or_app; right; assumption).
  pose proof (merge_left_fan_out _ _ _ _ _ EM) as Edata.
  pose proof (compare_rows_differing (columns joined) col_name headings
                (data joined) I1 I2 Hh') as Eloop.
  exists joined, (mkDataFrame headings
                    (map (project (columns joined) headings)
                       (filter (differs (columns joined) col_name)
                          (data joined)))).
  assert (Enull : forall l, In l (data df_1) ->
            value_at (columns joined) (l ++ null_row df_2) (col_name ++ "_2")
            = VNaN).
  { intros l Hl; rewrite Ecols; unfold null_row; apply value_at_null.
    - rewrite suffixed_length. unfold rectangular in R1.
      rewrite forallb_forall in R1. apply Nat.eqb_eq, R1; assumption.
    - rewrite <- Ecols; assumption.
    - assumption. }
  split; [reflexivity|]; split.
  { unfold compare_dates; rewrite EM; simpl; rewrite Eloop; reflexivity. }
  split; [assumption|]; split.
  { intros l Hl; destruct (fan_out_keeps df_1 df_2 common l) as (rest & Hr).
    exists rest; rewrite Edata; apply in_flat_map; eauto. }
  split; [reflexivity|]; split; [reflexivity|]; split.
  { intros a b; simpl; rewrite negb_true_iff; apply String.eqb_neq. }
  split.
  { intro v; split; destruct v; reflexivity. }
  split.
  { intro Hall; simpl.
    rewrite (filter_none _ _ Hall); reflexivity. }
  intros l Hl Hp; split; [auto|]; simpl.
  apply in_map, filter_In; split.
  - rewrite Edata; apply in_flat_map; exists l; split; [assumption|].
    unfold fan_out; rewrite Hp; left; reflexivity.
  - unfold differs; rewrite (Enull l Hl).
    destruct (value_at _ _ (col_name ++ "_1")); reflexivity.
Qed.

Lemma compare_dates_reports_differences_witness :
  exists joined result,
    merge_left lp_table sd_table "StudentID" ("_1", "_2") = Return joined
    /\ compare_dates lp_table sd_table "StudentID" "Start Date" start_headings
       = Return result
    /\ data result
       = [[VStr "1002"; VStr "Ben"; VStr "ABC"; VStr "05/03/2020";
           VStr "06/03/2020"];
          [VStr "1003"; VStr "Cy"; VStr "XYZ"; VStr "07/03/2020"; VNaN];
          [VStr "1004"; VStr "Di"; VStr "XYZ"; VStr "09/03/2020";
           VStr "10/10/2020"]].
Proof.
  destruct (compare_dates_reports_differences lp_table sd_table "StudentID"
              "Start Date" start_headings eq_refl)
    as (joined & result & Hm & Hc & _ & _ & _ & Hd & _).
  exists joined, result; split; [exact Hm|]; split; [exact Hc|].
  rewrite Hd; injection Hm as <-; reflexivity.
Defined.

(* ================================================================= *)
(** ** The end-to-end scenario *)

(** C2, as stated, fails.  Student 1001 starts on ["1/3/2020"] in the
    student database and on ["2020-03-01T..."] in the learning platform.
    The learning-platform date is cleaned to ["01/03/2020"], but the
    student-database date has eight characters, so the length rule of
    [clean_date] returns it unchanged: the two sides are not the same
    string, and [compare_dates] reports the student. *)
Lemma scenario_1001_is_reported :
  let sd_raw :=
    [[VStr "1001"; VStr "ABC"; VStr "T"; VStr "1/3/2020"; VStr "1/3/2021"]] in
  let lp_raw :=
    [[VStr "1001"; VStr "Ann"; VStr "ABC"; VStr "2020-03-01T00:00:00";
      VStr "2021-03-01T00:00:00"]] in
  let sd_data :=
    [[VStr "1001"; VStr "ABC"; VStr "1/3/2020"; VStr "1/3/2021"]] in
  let lp_data :=
    [[VStr "1001"; VStr "Ann"; VStr "ABC"; VStr "01/03/2020";
      VStr "01/03/2021"]] in
  clean_sd_data sd_raw = Return sd_data
  /\ @clean_lp_data scenario lp_raw = Return lp_data
  /\ VStr "1/3/2020" <> VStr "01/03/2020"
  /\ compare_dates (mkDataFrame lp_headings lp_data)
       (mkDataFrame sd_headings sd_data) "StudentID" "Start Date"
       start_headings
     = Return (mkDataFrame start_headings
                 [[VStr "1001"; VStr "Ann"; VStr "ABC"; VStr "01/03/2020";
                   VStr "1/3/2020"]])
  /\ compare_dates (mkDataFrame lp_headings lp_data)
       (mkDataFrame sd_headings sd_data) "StudentID" "Start Date"
       start_headings
     <> Return (mkDataFrame start_headings []).
Proof. repeat split; try reflexivity; discriminate. Qed.

(** C2, as amended.  Student 1001 starts on ["1/03/2020"] in the student
    database, the day without its leading zero and the month in two digits,
    and on a date whose string form begins ["2020-03-01T"] in the learning
    platform.  [clean_sd_data] and [clean_lp_data], with [clean_date_2] as
    its date collaborator, both give ["01/03/2020"], and [compare_dates] on
    the two cleaned tables reports no mismatch for the student. *)
Theorem scenario_1001_two_digit_month (time : string) :
  let sd_raw :=
    [[VStr "1001"; VStr "ABC"; VStr "T"; VStr "1/03/2020"; VStr "1/03/2021"]] in
  let lp_raw :=
    [[VStr "1001"; VStr "Ann"; VStr "ABC"; VStr ("2020-03-01T" ++ time);
      VStr "2021-03-01T00:00:00"]] in
  let sd_data :=
    [[VStr "1001"; VStr "ABC"; VStr "01/03/2020"; VStr "01/03/2021"]] in
  let lp_data :=
    [[VStr "1001"; VStr "Ann"; VStr "ABC"; VStr "01/03/2020";
      VStr "01/03/2021"]] in
  clean_sd_data sd_raw = Return sd_data
  /\ @clean_lp_data scenario lp_raw = Return lp_data
  /\ compare_dates (mkDataFrame lp_headings lp_data)
       (mkDataFrame sd_headings sd_data) "StudentID" "Start Date"
       start_headings
     = Return (mkDataFrame start_headings []).
Proof. repeat split; reflexivity. Qed.

(* ================================================================= *)
(** ** The warning log of a run *)

Lemma keeps_ret {A} (P : list event -> Prop) (a : A) : keeps P (ret a).
Proof. intros t H; exact H. Qed.

Lemma keeps_lift {A} (P : list event -> Prop) (o : outcome A) :
  keeps P (lift o).
Proof. intros t H; exact H. Qed.

Lemma keeps_bind {A B} (P : list event -> Prop) (m : M A) (k : A -> M B) :
  keeps P m -> (forall a, keeps P (k a)) -> keeps P (bind m k).
Proof.
  intros Hm Hk t H; unfold bind.
  specialize (Hm t H); destruct (m t) as [[a|e] t']; simpl in *.
  - apply Hk; assumption.
  - assumption.
Qed.

Lemma keeps_call (e : event) :
  header_only e -> keeps (Forall header_only) (call e).
Proof.
  intros He t H; unfold call; simpl.
  apply Forall_app; split; [assumption | constructor; [assumption | constructor]].
Qed.

Ltac keeps_step :=
  first [ apply keeps_ret
        | apply keeps_lift
        | apply keeps_call; simpl; auto
        | apply keeps_bind; [|intro]
        | match goal with
          | |- keeps _ (if ?b then _ else _) => destruct b
          | |- keeps _ (let '(_, _) := ?p in _) => destruct p
          end ].

Lemma check_edsd_keeps (rows : list (list value)) :
  keeps (Forall header_only) (check_edsd rows).
Proof. unfold check_edsd; repeat keeps_step. Qed.

Lemma check_edlp_keeps (rows : list (list value)) :
  keeps (Forall header_only) (check_edlp rows).
Proof. unfold check_edlp; repeat keeps_step. Qed.

Lemma load_data_keeps (file : list (list string)) (source : string) :
  keeps (Forall header_only) (load_data file source).
Proof.
  unfold load_data; repeat keeps_step;
    auto using check_edsd_keeps, check_edlp_keeps.
Qed.

(** [load_data] drops what the validator returns: its own list of warnings
    is never appended to. *)
Lemma load_data_returns_no_warning (file : list (list string))
  (source : string) (t t' : list event) (read_data : list (list value))
  (to_add : bool) (warnings_to_add : list string) :
  load_data file source t = (Return (read_data, to_add, warnings_to_add), t') ->
  to_add = false /\ warnings_to_add = [].
Proof.
  unfold load_data, bind, lift.
  destruct (for_each _ _ _) as [rows|]; [|discriminate].
  destruct (source =? "edlp")%string.
  - destruct (check_edlp rows t) as [[r|] t1]; simpl; [|discriminate].
    unfold ret; intro E; injection E as _ <- <- _; split; reflexivity.
  - destruct (source =? "edsd")%string.
    + destruct (check_edsd rows t) as [[r|] t1]; simpl; [|discriminate].
      unfold ret; intro E; injection E as _ <- <- _; split; reflexivity.
    + unfold ret; simpl; intro E; injection E as _ <- <- _; split; reflexivity.
Qed.

(** Whatever the two files hold, a run calls the warning log sink with the
    header of the run alone and the flag [False]. *)
Lemma process_enrolment_dates_header_only `{Collaborators}
  (lp_file sd_file : list (list string)) :
  Forall header_only (snd (run (process_enrolment_dates lp_file sd_file))).
Proof.
  unfold run.
  assert (K : keeps (Forall header_only)
                (process_enrolment_dates lp_file sd_file)).
  { unfold process_enrolment_dates.
    repeat first [ apply load_data_keeps | keeps_step ]. }
  apply K; constructor.
Qed.

(** C3, on the code.  A learning-platform file with a student without name
    and a student-database file with a student without tutor: each validator
    returns its warning with the flag [True], [load_data] hands on no
    warning and the flag [False], and the run gives the warning log sink the
    header alone with the flag [False]. *)
Theorem run_drops_validation_warnings :
  let lp_file :=
    [["1002"; ""; "ABC"; "2020-03-01T00:00:00"; "2021-03-01T00:00:00"]] in
  let sd_file := [["1002"; "ABC"; ""; "1/03/2020"; "1/03/2021"]] in
  run (check_edlp (map (map VStr) lp_file))
  = (Return (true,
             [edlp_header;
              "Student Name is missing for student with Student ID 1002"]),
     [])
  /\ run (check_edsd (map (map VStr) sd_file))
     = (Return (true,
                [edsd_header;
                 "Tutor is missing for student with Student ID 1002"]),
        [])
  /\ run (load_data lp_file "edlp")
     = (Return (map (map VStr) lp_file, false, []), [])
  /\ run (load_data sd_file "edsd")
     = (Return (map (map VStr) sd_file, false, []), [])
  /\ run (@process_enrolment_dates scenario lp_file sd_file)
     = (Return tt,
        [ConfirmFiles "Enrolment Dates Report"
           ["Enrolment Dates (Learning Platform)";
            "Enrolment Dates (Student Databse)"];
         ToExcel
           (mkDataFrame
              ["StudentID"; "Student"; "Course_1"; "Start Date LP";
               "Start Date SD"] [])
           "Start_Dates_.xls";
         ToExcel
           (mkDataFrame
              ["StudentID"; "Student"; "Course_1"; "Expiry Date LP";
               "Expiry Date SD"] [])
           "Expiry_Dates_.xls";
         ProcessWarningLog [dates_header] false]).
Proof. repeat split; reflexivity. Qed.

(* ================================================================= *)
(** ** More on the date normaliser *)

(** X1.  Whatever string [clean_date] is given, the string it returns never
    has nine characters: it is the input, or the input behind a ['0']. *)
Theorem clean_date_never_nine (s : string) :
  exists s',
    clean_date (VStr s) = Return (VStr s')
    /\ String.length s' <> 9
    /\ (s' = s \/ s' = String "0" s).
Proof.
  exists (padDay s); rewrite clean_date_padDay; split; [reflexivity|].
  unfold padDay; destruct (String.length s =? 9)%nat eqn:E.
  - apply Nat.eqb_eq in E; simpl; rewrite E; split; [lia | right; reflexivity].
  - apply Nat.eqb_neq in E; split; [assumption | left; reflexivity].
Qed.

Lemma substring_app (n m : nat) (s rest : string) :
  n + m <= String.length s ->
  substring n m (s ++ rest)%string = substring n m s.
Proof.
  revert n m; induction s as [|c s IH]; intros n m H; simpl in H.
  - assert (n = 0) by lia; assert (m = 0) by lia; subst.
    destruct rest; reflexivity.
  - destruct n as [|n]; simpl.
    + destruct m as [|m]; [reflexivity|].
      f_equal; apply (IH 0 m); lia.
    + apply IH; lia.
Qed.

(** X2.  [clean_date_2] reads the first ten characters only: what follows
    them, a time of day for one, does not change the result. *)
Theorem clean_date_2_first_ten (s rest : string) :
  10 <= String.length s ->
  clean_date_2 (VStr (s ++ rest)) = clean_date_2 (VStr s).
Proof.
  intro H; unfold clean_date_2; simpl str.
  rewrite !substring_app by lia; reflexivity.
Qed.

Lemma clean_date_2_first_ten_witness :
  clean_date_2 (VStr ("2020-03-05" ++ " 23:59:59"))
  = clean_date_2 (VStr "2020-03-05").
Proof. apply (clean_date_2_first_ten "2020-03-05" " 23:59:59"); simpl; lia. Defined.

Lemma ten_chars (s : string) :
  10 <= String.length s ->
  exists c0 c1 c2 c3 c4 c5 c6 c7 c8 c9 rest,
    s = String c0 (String c1 (String c2 (String c3 (String c4 (String c5
          (String c6 (String c7 (String c8 (String c9 rest))))))))).
Proof.
  destruct s as [|c0 [|c1 [|c2 [|c3 [|c4 [|c5 [|c6 [|c7 [|c8 [|c9 rest]]]]]]]]]];
    simpl; intro H; try lia.
  repeat eexists.
Qed.

Lemma substring_0_0 (s : string) : substring 0 0 s = EmptyString.
Proof. destruct s; reflexivity. Qed.

Lemma clean_date_2_ten (c0 c1 c2 c3 c4 c5 c6 c7 c8 c9 : ascii) (rest : string) :
  clean_date_2
    (VStr (String c0 (String c1 (String c2 (String c3 (String c4 (String c5
            (String c6 (String c7 (String c8 (String c9 rest)))))))))))
  = VStr (String c8 (String c9 (String "/" (String c5 (String c6 (String "/"
            (String c0 (String c1 (String c2 (String c3 EmptyString)))))))))).
Proof.
  unfold clean_date_2; simpl; rewrite !substring_0_0; reflexivity.
Qed.

(** X3.  The result of [clean_date_2] has the shape [DD/MM/YYYY] exactly
    when the string form of its argument has digits at the offsets it reads;
    the characters between them are not looked at. *)
Theorem clean_date_2_shape (v : value) :
  is_ddmmyyyy (str (clean_date_2 v)) = true
  <-> digits_at date_offsets (str v) = true.
Proof.
  destruct (le_lt_dec 10 (String.length (str v))) as [L|L].
  - destruct (ten_chars _ L)
      as (c0 & c1 & c2 & c3 & c4 & c5 & c6 & c7 & c8 & c9 & rest & E).
    assert (E' : clean_date_2 v = clean_date_2 (VStr (str v))) by reflexivity.
    rewrite E', E, clean_date_2_ten.
    unfold is_ddmmyyyy, digits_at, date_offsets; simpl.
    generalize (is_digit c0) (is_digit c1) (is_digit c2) (is_digit c3)
               (is_digit c5) (is_digit c6) (is_digit c8) (is_digit c9).
    intros [] [] [] [] [] [] [] []; simpl; split; congruence.
  - assert (E' : clean_date_2 v = clean_date_2 (VStr (str v))) by reflexivity.
    rewrite E'; clear E'; generalize dependent (str v); intros s L.
    destruct s as [|c0 [|c1 [|c2 [|c3 [|c4 [|c5 [|c6 [|c7 [|c8 [|c9 rest]]]]]]]]]];
      simpl in L; try lia;
      unfold clean_date_2, is_ddmmyyyy, digits_at, date_offsets; simpl;
      rewrite ?andb_false_r; split; discriminate.
Qed.

Lemma clean_date_2_shape_witness :
  is_ddmmyyyy (str (clean_date_2 (VStr "2020x03y05 noon"))) = true.
Proof.
  apply (proj2 (clean_date_2_shape (VStr "2020x03y05 noon"))); reflexivity.
Defined.

(** X4.  On a value whose string form has at least nine characters,
    [clean_date] after [clean_date_2] returns ten characters: a result of
    [clean_date_2] with its two-character day is left as it is, one with a
    single-character day is padded. *)
Theorem clean_date_after_clean_date_2 (v : value) :
  9 <= String.length (str v) ->
  exists s',
    clean_date (clean_date_2 v) = Return (VStr s')
    /\ String.length s' = 10
    /\ (10 <= String.length (str v) -> VStr s' = clean_date_2 v).
Proof.
  intro H.
  assert (E' : clean_date_2 v = clean_date_2 (VStr (str v))) by reflexivity.
  rewrite E'; clear E'; generalize dependent (str v); intros s H.
  destruct s as [|c0 [|c1 [|c2 [|c3 [|c4 [|c5 [|c6 [|c7 [|c8 [|c9 rest]]]]]]]]]];
    simpl in H; try lia.
  - eexists; split; [reflexivity|]; split; [reflexivity|].
    simpl; intro; lia.
  - rewrite clean_date_2_ten; eexists; split; [reflexivity|].
    split; [reflexivity|]; intro; reflexivity.
Qed.

Lemma clean_date_after_clean_date_2_witness :
  exists s',
    clean_date (clean_date_2 (VStr "2020-03-5")) = Return (VStr s')
    /\ String.length s' = 10
    /\ (10 <= String.length "2020-03-5" ->
        VStr s' = clean_date_2 (VStr "2020-03-5")).
Proof.
  apply (clean_date_after_clean_date_2 (VStr "2020-03-5")); simpl; lia.
Defined.

(* ================================================================= *)
(** ** More on the validators *)

Lemma check_edsd_student_short (student : list value)
  (st : list string * list string) :
  length student < 5 -> check_edsd_student student st = Raise IndexError.
Proof.
  destruct st as [e w].
  destruct student as [|a [|b [|c [|d [|f rest]]]]]; simpl; intro H; try lia;
    unfold check_edsd_student, append_if_missing; simpl;
    split_missing; reflexivity.
Qed.

Lemma check_edlp_student_short (student : list value)
  (st : list string * list string) :
  length student < 5 -> check_edlp_student student st = Raise IndexError.
Proof.
  destruct st as [e w].
  destruct student as [|a [|b [|c [|d [|f rest]]]]]; simpl; intro H; try lia;
    unfold check_edlp_student, append_if_missing; simpl;
    split_missing; reflexivity.
Qed.

Lemma for_each_short_row
  (body : list value -> list string * list string
          -> outcome (list string * list string))
  (g h : list value -> list string) (rows : list (list value)) :
  (forall student e w, 5 <= length student ->
                       body student (e, w) = Return (e ++ g student, w ++ h student)) ->
  (forall student st, length student < 5 -> body student st = Raise IndexError) ->
  Exists (fun student => length student < 5) rows ->
  forall e w, for_each body rows (e, w) = Raise IndexError.
Proof.
  intros Hok Hshort; induction rows as [|r rows IH]; intros Hex e w.
  - inversion Hex.
  - simpl; destruct (le_lt_dec 5 (length r)) as [L|L].
    + rewrite (Hok r e w L); simpl; apply IH.
      inversion Hex; subst; [lia | assumption].
    + rewrite (Hshort r (e, w) L); reflexivity.
Qed.

Lemma validators_short_rows (rows : list (list value)) (t : list event) :
  Exists (fun student => length student < 5) rows ->
  check_edsd rows t = (Raise IndexError, t)
  /\ check_edlp rows t = (Raise IndexError, t).
Proof.
  intro H; unfold check_edsd, check_edlp, bind, lift; split.
  - rewrite (for_each_short_row check_edsd_student
               (findings edsd_contract IsError)
               (findings edsd_contract IsWarning));
      auto using check_edsd_student_findings, check_edsd_student_short.
  - rewrite (for_each_short_row check_edlp_student
               (findings edlp_contract IsError)
               (findings edlp_contract IsWarning));
      auto using check_edlp_student_findings, check_edlp_student_short.
Qed.

(** X5.  A row with fewer than five fields makes either validator raise
    [IndexError]; what the pass had collected until then is lost, and the
    error log sink is not called. *)
Theorem validators_raise_on_short_row (rows : list (list value))
  (t : list event) :
  Exists (fun student => length student < 5) rows ->
  check_edsd rows t = (Raise IndexError, t)
  /\ check_edlp rows t = (Raise IndexError, t).
Proof. apply validators_short_rows. Qed.

Lemma validators_raise_on_short_row_witness :
  check_edsd
    [[VStr "1"; VStr ""; VStr "T"; VStr "1/01/2020"; VStr "1/01/2021"];
     [VStr "2"; VStr "C"; VStr "T"; VStr "1/01/2020"]] []
  = (Raise IndexError, [])
  /\ check_edlp
       [[VStr "1"; VStr ""; VStr "T"; VStr "1/01/2020"; VStr "1/01/2021"];
        [VStr "2"; VStr "C"; VStr "T"; VStr "1/01/2020"]] []
     = (Raise IndexError, []).
Proof.
  apply validators_raise_on_short_row.
  right; left; simpl; lia.
Defined.

Lemma flat_map_nil {A B} (f : A -> list B) (xs : list A) :
  flat_map f xs = [] <-> Forall (fun x => f x = []) xs.
Proof.
  induction xs as [|x xs IH]; simpl; split; intro H.
  - constructor.
  - reflexivity.
  - apply app_eq_nil in H as [H1 H2]; constructor; [assumption | apply IH, H2].
  - inversion H as [|? ? H1 H2]; subst; rewrite H1; apply IH, H2.
Qed.

Lemma findings_nil_edsd (student : list value) :
  findings edsd_contract IsError student = []
  /\ findings edsd_contract IsWarning student = []
  <-> complete student = true.
Proof.
  unfold findings, complete; simpl.
  destruct (missing student 1), (missing student 2), (missing student 3),
    (missing student 4); simpl; split; try discriminate; try (split; reflexivity);
    intros [? ?]; try discriminate; reflexivity.
Qed.

Lemma findings_nil_edlp (student : list value) :
  findings edlp_contract IsError student = []
  /\ findings edlp_contract IsWarning student = []
  <-> complete student = true.
Proof.
  unfold findings, complete; simpl.
  destruct (missing student 1), (missing student 2), (missing student 3),
    (missing student 4); simpl; split; try discriminate; try (split; reflexivity);
    intros [? ?]; try discriminate; reflexivity.
Qed.

Lemma report_nil (contract : list rule) (rows : list (list value)) :
  (forall student,
      findings contract IsError student = []
      /\ findings contract IsWarning student = []
      <-> complete student = true) ->
  report contract IsError rows = [] /\ report contract IsWarning rows = []
  <-> forallb complete rows = true.
Proof.
  intro H; unfold report; rewrite !flat_map_nil, forallb_forall, !Forall_forall.
  split.
  - intros [He Hw] student Hin; apply H; split; auto.
  - intro Hc; split; intros student Hin; apply (H student); auto.
Qed.

(** X6.  On rows of five fields a validator stays silent, with no call to
    the error log sink, the header alone and the flag [False], exactly when
    no row misses any of its four governed fields. *)
Theorem validators_silent_iff_complete (rows : list (list value)) :
  Forall (fun student => 5 <= length student) rows ->
  (run (check_edsd rows) = (Return (false, [edsd_header]), [])
   <-> forallb complete rows = true)
  /\ (run (check_edlp rows) = (Return (false, [edlp_header]), [])
      <-> forallb complete rows = true).
Proof.
  intro H; unfold run.
  rewrite check_edsd_run, check_edlp_run by assumption.
  rewrite <- (report_nil edsd_contract rows findings_nil_edsd) at 1.
  rewrite <- (report_nil edlp_contract rows findings_nil_edlp).
  unfold error_log; simpl app; split; split.
  - intro E; injection E as _ Hw He.
    destruct (report edsd_contract IsError rows); [|discriminate].
    split; [reflexivity | assumption].
  - intros [-> ->]; reflexivity.
  - intro E; injection E as _ Hw He.
    destruct (report edlp_contract IsError rows); [|discriminate].
    split; [reflexivity | assumption].
  - intros [-> ->]; reflexivity.
Qed.

Lemma validators_silent_iff_complete_witness :
  run (check_edsd
         [[VStr "1"; VStr "C"; VStr "T"; VStr "1/01/2020"; VStr "1/01/2021"]])
  = (Return (false, [edsd_header]), []).
Proof.
  refine (proj2 (proj1 (validators_silent_iff_complete
            [[VStr "1"; VStr "C"; VStr "T"; VStr "1/01/2020"; VStr "1/01/2021"]]
            _)) eq_refl).
  repeat constructor.
Defined.

(* ================================================================= *)
(** ** More on the cleaners *)

Lemma for_each_collect_inv {A B} (f : A -> outcome B) (xs : list A) :
  forall acc out,
    for_each (fun x acc => (r <- f x ;; Return (acc ++ [r]))%py) xs acc
    = Return out ->
    exists rows,
      Forall2 (fun x r => f x = Return r) xs rows /\ out = acc ++ rows.
Proof.
  induction xs as [|x xs IH]; simpl; intros acc out H.
  - injection H as <-; exists []; split; [constructor | symmetry; apply app_nil_r].
  - destruct (f x) as [r|e] eqn:E; simpl in H; [|discriminate].
    destruct (IH _ _ H) as (rows & H2 & ->).
    exists (r :: rows); split; [constructor; assumption|].
    rewrite <- app_assoc; reflexivity.
Qed.

Lemma clean_sd_student_returns (student row : list value) :
  clean_sd_student student = Return row ->
  strings_at [0; 1; 3; 4] student = true /\ length row = 4.
Proof.
  unfold clean_sd_student, stripped, getitem, strings_at.
  destruct student as [|a [|b [|c [|d [|e rest]]]]]; simpl;
    repeat match goal with
           | |- context [strip ?v] => is_var v; destruct v; simpl
           | |- context [clean_date ?v] =>
               is_var v; destruct v;
               rewrite ?clean_date_padDay, ?clean_date_not_str by reflexivity;
               simpl
           end;
    intro E; try discriminate E.
  injection E as <-; split; reflexivity.
Qed.

(** X7.  [clean_sd_data] returns exactly when every row has a string as
    student ID, course, enrolment date and expiry date; it then gives one
    row of four fields for each row it was given. *)
Theorem clean_sd_data_returns_iff (raw_data : list (list value)) :
  ((exists cleaned, clean_sd_data raw_data = Return cleaned)
   <-> Forall (fun student => strings_at [0; 1; 3; 4] student = true) raw_data)
  /\ (forall cleaned,
         clean_sd_data raw_data = Return cleaned ->
         length cleaned = length raw_data
         /\ Forall (fun row => length row = 4) cleaned).
Proof.
  assert (Inv : forall cleaned,
             clean_sd_data raw_data = Return cleaned ->
             Forall2 (fun student row => clean_sd_student student = Return row)
               raw_data cleaned).
  { intros cleaned H; apply for_each_collect_inv in H as (rows & H2 & ->).
    exact H2. }
  split; [split|].
  - intros (cleaned & H); pose proof (Inv cleaned H) as F; clear H Inv.
    induction F as [|student row raw rows Hs _ IH]; constructor.
    + exact (proj1 (clean_sd_student_returns student row Hs)).
    + exact IH.
  - intro H; unfold clean_sd_data.
    pose (row_of := fun student =>
                      [VStr (strip_str (field student 0));
                       VStr (strip_str (field student 1));
                       VStr (padDay (field student 3));
                       VStr (padDay (field student 4))]).
    exists (map row_of raw_data).
    rewrite (for_each_collect clean_sd_student raw_data (map row_of raw_data));
      [reflexivity|].
    clear Inv; induction H; simpl; constructor;
      auto using clean_sd_student_ok.
  - intros cleaned H; pose proof (Inv cleaned H) as F; clear H Inv.
    induction F as [|student row raw rows Hs _ [IH1 IH2]]; simpl.
    + split; [reflexivity | constructor].
    + split; [congruence | constructor; [|assumption]].
      exact (proj2 (clean_sd_student_returns student row Hs)).
Qed.

Lemma clean_sd_data_returns_iff_witness :
  exists cleaned,
    clean_sd_data
      [[VStr "1"; VStr "C"; VNone; VStr ""; VStr "tbc"; VStr "extra"]]
    = Return cleaned.
Proof.
  apply (proj2 (proj1 (clean_sd_data_returns_iff
           [[VStr "1"; VStr "C"; VNone; VStr ""; VStr "tbc"; VStr "extra"]]))).
  repeat constructor.
Defined.

Lemma clean_lp_student_returns `{Collaborators} (student row : list value) :
  clean_lp_student student = Return row -> lp_row_ok student = true.
Proof.
  unfold clean_lp_student, stripped, getitem, lp_row_ok, strings_at.
  destruct student as [|a [|b [|c [|d [|e rest]]]]]; simpl;
    repeat match goal with
           | |- context [strip ?v] => is_var v; destruct v; simpl
           | |- context [extract_course_code ?l] =>
               destruct (extract_course_code l) as [[]|]; simpl
           | |- context [da_clean_date ?l] =>
               destruct (da_clean_date l); simpl
           end;
    intro E; try discriminate E; reflexivity.
Qed.

Lemma clean_lp_data_filter `{Collaborators} (raw_data : list (list value)) :
  Forall (fun student => lp_row_ok student = true) raw_data ->
  exists rows,
    length rows = length raw_data
    /\ Forall (fun row => exists a b code d e, row = [a; b; VStr code; d; e])
         rows
    /\ clean_lp_data raw_data
       = Return (filter (fun row => negb (is_skip row)) rows).
Proof.
  intro H0; destruct (clean_lp_students_ok raw_data H0) as (rows & H2 & Hc).
  exists rows; split; [symmetry; eapply Forall2_length; eassumption|].
  split; [assumption|].
  unfold clean_lp_data.
  rewrite (for_each_collect clean_lp_student raw_data rows H2); simpl.
  rewrite remove_students_filter.
  - f_equal; apply filter_ext_in; intros row Hin.
    rewrite Forall_forall in Hc.
    destruct (Hc row Hin) as (a & b & code & d & e & ->); reflexivity.
  - eapply Forall_impl; [|exact Hc].
    intros row (a & b & code & d & e & ->); simpl; lia.
Qed.

(** X8.  [clean_lp_data] returns exactly when every row has a string as
    student ID and as name, and the collaborators accept its course label
    and its two dates; the rows it then returns are no more than it was
    given, have five fields each, and none has the course code ["Skip"]. *)
Theorem clean_lp_data_returns_iff `{Collaborators}
  (raw_data : list (list value)) :
  ((exists cleaned, clean_lp_data raw_data = Return cleaned)
   <-> Forall (fun student => lp_row_ok student = true) raw_data)
  /\ (forall cleaned,
         clean_lp_data raw_data = Return cleaned ->
         length cleaned <= length raw_data
         /\ Forall (fun row => length row = 5 /\ is_skip row = false) cleaned).
Proof.
  assert (Ok : (exists cleaned, clean_lp_data raw_data = Return cleaned) ->
               Forall (fun student => lp_row_ok student = true) raw_data).
  { intros (cleaned & Hret); unfold clean_lp_data in Hret.
    destruct (for_each _ raw_data []) as [rows|] eqn:E; [|discriminate].
    apply for_each_collect_inv in E as (rows' & H2 & _).
    clear Hret; induction H2 as [|student row raw rs Hs _ IH]; constructor.
    - apply (clean_lp_student_returns student row Hs).
    - apply IH. }
  split; [split; [exact Ok|]|].
  - intro H0; destruct (clean_lp_data_filter raw_data H0) as (rows & _ & _ & E).
    eexists; exact E.
  - intros cleaned Hret.
    destruct (clean_lp_data_filter raw_data (Ok (ex_intro _ cleaned Hret)))
      as (rows & Hl & Hc & E).
    rewrite E in Hret; injection Hret as <-; split.
    + rewrite <- Hl; apply filter_length_le.
    + apply Forall_forall; intros row Hin; apply filter_In in Hin as [Hin Hk].
      rewrite Forall_forall in Hc.
      destruct (Hc row Hin) as (a & b & code & d & e & ->).
      split; [reflexivity | apply negb_true_iff; assumption].
Qed.

Lemma clean_lp_data_returns_iff_witness :
  exists cleaned,
    @clean_lp_data scenario
      [[VStr "1"; VStr ""; VStr "Skip"; VNone; VStr "2021"]]
    = Return cleaned.
Proof.
  apply (proj2 (proj1 (@clean_lp_data_returns_iff scenario
           [[VStr "1"; VStr ""; VStr "Skip"; VNone; VStr "2021"]]))).
  repeat constructor.
Defined.

Lemma remove_students_loop_short (location : nat) (identifier : value)
  (students : list (list value)) :
  Exists (fun row => length row <= location) students ->
  forall acc,
    for_each
      (fun student updated_list =>
         (field <- getitem student location ;;
          if ne field identifier
          then Return (updated_list ++ [student])
          else Return updated_list)%py)
      students acc
    = Raise IndexError.
Proof.
  induction students as [|row rows IH]; intros Hex acc; [inversion Hex|].
  simpl; unfold getitem at 1.
  destruct (nth_error row location) as [v|] eqn:E; simpl; [|reflexivity].
  assert (L : location < length row)
    by (apply nth_error_Some; rewrite E; discriminate).
  inversion Hex; subst; [lia|].
  destruct (ne v identifier); apply IH; assumption.
Qed.

Lemma remove_students_short (students : list (list value)) (location : nat)
  (identifier : value) :
  Exists (fun row => length row <= location) students ->
  remove_students students location identifier = Raise IndexError.
Proof.
  intro Hex; apply remove_students_loop_short; assumption.
Qed.

Lemma Forall_or_Exists_short (students : list (list value)) (location : nat) :
  Forall (fun row => location < length row) students
  \/ Exists (fun row => length row <= location) students.
Proof.
  induction students as [|row rows [IH|IH]].
  - left; constructor.
  - destruct (le_lt_dec (length row) location).
    + right; left; assumption.
    + left; constructor; assumption.
  - right; right; assumption.
Qed.

(** X9.  [remove_students] returns exactly when every row has the column it
    looks at, and raises [IndexError] as soon as one row is too short. *)
Theorem remove_students_returns_iff (students : list (list value))
  (location : nat) (identifier : value) :
  ((exists updated, remove_students students location identifier
                    = Return updated)
   <-> Forall (fun row => location < length row) students)
  /\ (Exists (fun row => length row <= location) students ->
      remove_students students location identifier = Raise IndexError).
Proof.
  split; [split|].
  - intros (updated & E).
    destruct (Forall_or_Exists_short students location) as [F|X];
      [assumption|].
    rewrite (remove_students_short students location identifier X) in E.
    discriminate.
  - intro F; eexists; apply remove_students_filter; assumption.
  - apply remove_students_short.
Qed.

Lemma remove_students_returns_iff_witness :
  remove_students [[VStr "1"; VStr "A"; VStr "Skip"]; [VStr "2"; VStr "B"]] 2
    (VStr "Skip")
  = Raise IndexError.
Proof.
  apply (proj2 (remove_students_returns_iff
                  [[VStr "1"; VStr "A"; VStr "Skip"]; [VStr "2"; VStr "B"]] 2
                  (VStr "Skip"))).
  right; left; simpl; lia.
Defined.

Lemma filter_idem {A} (p : A -> bool) (xs : list A) :
  filter p (filter p xs) = filter p xs.
Proof.
  induction xs as [|x xs IH]; simpl; [reflexivity|].
  destruct (p x) eqn:E; simpl; rewrite ?E, IH; reflexivity.
Qed.

Lemma ne_str_iff (row : list value) (location : nat) (identifier : string) :
  location < length row ->
  ne (nth location row VNaN) (VStr identifier) = true
  <-> nth_error row location <> Some (VStr identifier).
Proof.
  intro L.
  destruct (nth_error row location) as [v|] eqn:E;
    [|apply nth_error_None in E; lia].
  rewrite (nth_error_nth _ _ VNaN E).
  destruct v as [|x|]; simpl; split; intro H; try reflexivity; try discriminate.
  - apply negb_true_iff, String.eqb_neq in H; congruence.
  - apply negb_true_iff, String.eqb_neq; congruence.
Qed.

(** X10.  On rows that have the column, [remove_students] with a string as
    identifier keeps exactly the rows whose field is not that string, and a
    second pass over its result changes nothing. *)
Theorem remove_students_idempotent (students : list (list value))
  (location : nat) (identifier : string) :
  Forall (fun row => location < length row) students ->
  exists updated,
    remove_students students location (VStr identifier) = Return updated
    /\ remove_students updated location (VStr identifier) = Return updated
    /\ (forall row,
           In row updated
           <-> In row students
               /\ nth_error row location <> Some (VStr identifier)).
Proof.
  intro F.
  exists (filter (fun row => ne (nth location row VNaN) (VStr identifier))
            students).
  split; [apply remove_students_filter; assumption|]; split.
  - rewrite remove_students_filter, filter_idem; [reflexivity|].
    apply Forall_forall; intros row Hin; apply filter_In in Hin as [Hin _].
    rewrite Forall_forall in F; auto.
  - intro row; rewrite filter_In; rewrite Forall_forall in F; split.
    + intros [Hin Hne]; split; [assumption|].
      apply ne_str_iff; auto.
    + intros [Hin Hne]; split; [assumption|].
      apply ne_str_iff; auto.
Qed.

Lemma remove_students_idempotent_witness :
  exists updated,
    remove_students
      [[VStr "1"; VStr "Skip"]; [VStr "2"; VNone]; [VStr "3"; VStr "skip"]] 1
      (VStr "Skip")
    = Return updated
    /\ remove_students updated 1 (VStr "Skip") = Return updated
    /\ (forall row,
           In row updated
           <-> In row [[VStr "1"; VStr "Skip"]; [VStr "2"; VNone];
                       [VStr "3"; VStr "skip"]]
               /\ nth_error row 1 <> Some (VStr "Skip")).
Proof.
  apply (remove_students_idempotent
           [[VStr "1"; VStr "Skip"]; [VStr "2"; VNone]; [VStr "3"; VStr "skip"]]
           1 "Skip").
  repeat constructor.
Defined.

Lemma lstrip_head (s : string) (c : ascii) (r : string) :
  lstrip s = String c r -> is_space c = false.
Proof.
  induction s as [|a s IH]; simpl; [discriminate|].
  destruct (is_space a) eqn:E; [exact IH|].
  intro Heq; injection Heq as <- _; assumption.
Qed.

Lemma rstrip_head (t : string) (c : ascii) (r : string) :
  rstrip t = String c r -> exists t', t = String c t'.
Proof.
  destruct t as [|a t]; simpl; [discriminate|].
  destruct (rstrip t); [destruct (is_space a); [discriminate|]|];
    intro Heq; injection Heq as <- _; eexists; reflexivity.
Qed.

Lemma rstrip_last (t : string) :
  match last_char (rstrip t) with
  | Some d => is_space d = false
  | None => True
  end.
Proof.
  induction t as [|c t IH]; simpl; [exact I|].
  destruct (rstrip t) as [|a r].
  - destruct (is_space c) eqn:E; simpl; [exact I | assumption].
  - exact IH.
Qed.

Lemma strip_str_trimmed (s : string) : trimmed (strip_str s) = true.
Proof.
  unfold trimmed, strip_str.
  pose proof (rstrip_last (lstrip s)) as L.
  destruct (rstrip (lstrip s)) as [|c r] eqn:E; [reflexivity|].
  destruct (last_char (String c r)) as [d|]; [|reflexivity].
  destruct (rstrip_head _ _ _ E) as (t' & Et).
  rewrite (lstrip_head _ _ _ Et), L; reflexivity.
Qed.

Lemma clean_sd_student_shape (student row : list value) :
  clean_sd_student student = Return row ->
  exists sid course start expiry,
    row = [VStr (strip_str sid); VStr (strip_str course); start; expiry].
Proof.
  intro E.
  destruct (clean_sd_student_returns student row E) as [Hs _].
  rewrite (clean_sd_student_ok student Hs) in E; injection E as <-.
  repeat eexists.
Qed.

Lemma clean_lp_student_shape `{Collaborators} (student row : list value) :
  clean_lp_student student = Return row ->
  exists sid name code start expiry,
    row = [VStr (strip_str sid); VStr (strip_str name); VStr (strip_str code);
           start; expiry].
Proof.
  unfold clean_lp_student, stripped, getitem.
  destruct student as [|a [|b [|c [|d [|e rest]]]]]; simpl;
    repeat match goal with
           | |- context [strip ?v] => is_var v; destruct v; simpl
           | |- context [extract_course_code ?l] =>
               destruct (extract_course_code l) as [[]|]; simpl
           | |- context [da_clean_date ?l] =>
               destruct (da_clean_date l); simpl
           end;
    intro E; try discriminate E.
  injection E as <-; repeat eexists.
Qed.

(** X11.  In every row either cleaner returns, the texts it has stripped -
    student ID and course of the student database, student ID, name and
    course code of the learning platform - neither begin nor end with white
    space. *)
Theorem cleaned_text_is_trimmed `{Collaborators}
  (raw_data cleaned : list (list value)) :
  (clean_sd_data raw_data = Return cleaned ->
   Forall (fun row =>
             exists sid course start expiry,
               row = [VStr sid; VStr course; start; expiry]
               /\ trimmed sid = true /\ trimmed course = true) cleaned)
  /\ (clean_lp_data raw_data = Return cleaned ->
      Forall (fun row =>
                exists sid name code start expiry,
                  row = [VStr sid; VStr name; VStr code; start; expiry]
                  /\ trimmed sid = true /\ trimmed name = true
                  /\ trimmed code = true) cleaned).
Proof.
  split; intro E.
  - apply for_each_collect_inv in E as (rows & H2 & ->); simpl.
    induction H2 as [|student row raw rows Hs _ IH]; constructor; [|exact IH].
    destruct (clean_sd_student_shape student row Hs)
      as (sid & course & start & expiry & ->).
    do 4 eexists; split; [reflexivity|].
    split; apply strip_str_trimmed.
  - unfold clean_lp_data in E.
    destruct (for_each _ raw_data []) as [rows|] eqn:El; [|discriminate].
    apply for_each_collect_inv in El as (rows' & H2 & ->); simpl in E.
    assert (Hc : Forall (fun row =>
                exists sid name code start expiry,
                  row = [VStr sid; VStr name; VStr code; start; expiry]
                  /\ trimmed sid = true /\ trimmed name = true
                  /\ trimmed code = true) rows').
    { clear E; induction H2 as [|student row raw rows Hs _ IH]; constructor;
        [|exact IH].
      destruct (clean_lp_student_shape student row Hs)
        as (sid & name & code & start & expiry & ->).
      do 5 eexists; split; [reflexivity|].
      repeat split; apply strip_str_trimmed. }
    rewrite remove_students_filter in E.
    + injection E as <-.
      apply Forall_forall; intros row Hin; apply filter_In in Hin as [Hin _].
      rewrite Forall_forall in Hc; auto.
    + eapply Forall_impl; [|exact Hc].
      intros row (sid & name & code & start & expiry & -> & _); simpl; lia.
Qed.

Lemma cleaned_text_is_trimmed_witness :
  Forall (fun row =>
            exists sid course start expiry,
              row = [VStr sid; VStr course; start; expiry]
              /\ trimmed sid = true /\ trimmed course = true)
    [[VStr "1001"; VStr "A B"; VStr "01/03/2020"; VStr ""]].
Proof.
  apply (proj1 (@cleaned_text_is_trimmed scenario
                  [[VStr "  1001 "; VStr " A B"; VNaN; VStr "1/03/2020";
                    VStr ""]]
                  [[VStr "1001"; VStr "A B"; VStr "01/03/2020"; VStr ""]])).
  reflexivity.
Defined.

(* ================================================================= *)
(** ** More on the reconciliation engine *)

Lemma index_of_None (name : string) (cols : list string) :
  ~ In name cols -> index_of name cols = None.
Proof.
  induction cols as [|c cs IH]; simpl; intro H; [reflexivity|].
  destruct (c =? name)%string eqn:E.
  - apply String.eqb_eq in E; exfalso; apply H; left; assumption.
  - rewrite IH by (intro; apply H; right; assumption); reflexivity.
Qed.

Lemma merge_left_returns (df_1 df_2 : DataFrame) (common : string)
  (suffixes : string * string) :
  In common (columns df_1) -> In common (columns df_2) ->
  exists joined,
    merge_left df_1 df_2 common suffixes = Return joined
    /\ data joined = flat_map (fan_out df_1 df_2 common) (data df_1).
Proof.
  intros H1 H2; unfold merge_left.
  destruct (index_of_In _ _ H1) as (i & Hi & _).
  destruct (index_of_In _ _ H2) as (j & Hj & _).
  rewrite Hi, Hj; eexists; split; [reflexivity|]; simpl.
  apply flat_map_ext; intro l; apply join_row_fan_out; assumption.
Qed.

(** X12.  Without the join key in both tables [compare_dates] raises
    [KeyError]; with it, and no row in the left table, it returns the empty
    table under the output columns, whatever the date column and the output
    columns are. *)
Theorem compare_dates_key_and_empty_left (df_1 df_2 : DataFrame)
  (common col_name : string) (headings : list string) :
  (~ In common (columns df_1) \/ ~ In common (columns df_2) ->
   compare_dates df_1 df_2 common col_name headings = Raise KeyError)
  /\ (In common (columns df_1) -> In common (columns df_2) ->
      data df_1 = [] ->
      compare_dates df_1 df_2 common col_name headings
      = Return (mkDataFrame headings [])).
Proof.
  split.
  - intro H; unfold compare_dates, merge_left.
    destruct H as [H|H]; rewrite (index_of_None _ _ H);
      [|destruct (index_of common (columns df_1))]; reflexivity.
  - intros H1 H2 He; unfold compare_dates.
    destruct (merge_left_returns df_1 df_2 common ("_1", "_2") H1 H2)
      as (joined & -> & Ed); simpl.
    rewrite Ed, He; reflexivity.
Qed.

Lemma compare_dates_key_and_empty_left_witness :
  compare_dates lp_table (mkDataFrame ["Student ID"; "Start Date"] [])
    "StudentID" "Start Date" start_headings
  = Raise KeyError
  /\ compare_dates (mkDataFrame lp_headings []) sd_table "StudentID"
       "No such date" ["No such column"]
     = Return (mkDataFrame ["No such column"] []).
Proof.
  split.
  - apply (proj1 (compare_dates_key_and_empty_left lp_table
                    (mkDataFrame ["Student ID"; "Start Date"] [])
                    "StudentID" "Start Date" start_headings)).
    right; simpl; intros [E|[E|[]]]; discriminate.
  - apply (proj2 (compare_dates_key_and_empty_left
                    (mkDataFrame lp_headings []) sd_table "StudentID"
                    "No such date" ["No such column"])); simpl; auto.
Defined.

Lemma loc_returns (cols : list string) (row : list value) (name : string)
  (v : value) :
  loc cols row name = Return v -> In name cols /\ v = value_at cols row name.
Proof.
  unfold loc, value_at.
  destruct (index_of name cols) as [i|] eqn:E; [|discriminate].
  intro H; injection H as <-; split; [|reflexivity].
  eapply nth_error_In, index_of_nth; eassumption.
Qed.

Lemma loc_unknown (cols : list string) (row : list value) (name : string) :
  ~ In name cols -> loc cols row name = Raise KeyError.
Proof. intro H; unfold loc; rewrite (index_of_None _ _ H); reflexivity. Qed.

Lemma loc_list_returns (cols : list string) (row : list value)
  (headings : list string) (vs : list value) :
  loc_list cols row headings = Return vs ->
  Forall (fun h => In h cols) headings /\ vs = project cols headings row.
Proof.
  revert vs; induction headings as [|h hs IH]; simpl; intros vs H.
  - injection H as <-; split; [constructor | reflexivity].
  - destruct (loc cols row h) as [v|] eqn:E; simpl in H; [|discriminate].
    destruct (loc_list cols row hs) as [ws|]; simpl in H; [|discriminate].
    injection H as <-.
    destruct (loc_returns _ _ _ _ E) as [Hin ->].
    destruct (IH ws eq_refl) as [Hf ->].
    split; [constructor; assumption | reflexivity].
Qed.

Lemma loc_list_unknown (cols : list string) (row : list value)
  (headings : list string) :
  Exists (fun h => ~ In h cols) headings ->
  loc_list cols row headings = Raise KeyError.
Proof.
  induction 1 as [h hs Hh|h hs _ IH]; simpl.
  - rewrite (loc_unknown _ _ _ Hh); reflexivity.
  - unfold loc at 1; destruct (index_of h cols); simpl; [|reflexivity].
    rewrite IH; reflexivity.
Qed.

Lemma compare_row_returns (cols : list string) (col_name : string)
  (headings : list string) (row : list value)
  (acc out : list (list value)) :
  compare_row cols col_name headings row acc = Return out ->
  out = acc ++ (if differs cols col_name row
                then [project cols headings row] else []).
Proof.
  unfold compare_row, differs.
  destruct (loc cols row (col_name ++ "_1")) as [a|] eqn:Ea; simpl;
    [|discriminate].
  destruct (loc cols row (col_name ++ "_2")) as [b|] eqn:Eb; simpl;
    [|discriminate].
  destruct (loc_returns _ _ _ _ Ea) as [_ <-].
  destruct (loc_returns _ _ _ _ Eb) as [_ <-].
  destruct (ne a b).
  - destruct (loc_list cols row headings) as [vs|] eqn:El; simpl;
      [|discriminate].
    destruct (loc_list_returns _ _ _ _ El) as [_ ->].
    intro H; injection H as <-; reflexivity.
  - intro H; injection H as <-; rewrite app_nil_r; reflexivity.
Qed.

Lemma compare_rows_return (cols : list string) (col_name : string)
  (headings : list string) (rows : list (list value)) :
  forall acc out,
    for_each (compare_row cols col_name headings) rows acc = Return out ->
    out = acc ++ map (project cols headings)
                   (filter (differs cols col_name) rows).
Proof.
  induction rows as [|row rows IH]; simpl; intros acc out H.
  - injection H as <-; rewrite app_nil_r; reflexivity.
  - destruct (compare_row cols col_name headings row acc) as [acc'|] eqn:E;
      simpl in H; [|discriminate].
    rewrite (IH _ _ H), (compare_row_returns _ _ _ _ _ _ E), <- app_assoc.
    destruct (differs cols col_name row); reflexivity.
Qed.

Lemma fan_out_extends (df_1 df_2 : DataFrame) (common : string)
  (l j : list value) :
  In j (fan_out df_1 df_2 common l) -> exists rest, j = l ++ rest.
Proof.
  unfold fan_out.
  destruct (partners df_2 common (value_at (columns df_1) l common)).
  - intros [<-|[]]; eexists; reflexivity.
  - intro H; apply in_map_iff in H as (r & <- & _); eexists; reflexivity.
Qed.

(** X13.  Whenever [compare_dates] returns, its table has the output
    columns, and its rows are the rows of the left join whose two dates
    differ, cut down to the output columns, in the order of the join: no
    more rows than the join has, and each one made from a row of the left
    table, so that a student of the right table alone is never reported. *)
Theorem compare_dates_returns_left_rows (df_1 df_2 result : DataFrame)
  (common col_name : string) (headings : list string) :
  compare_dates df_1 df_2 common col_name headings = Return result ->
  exists joined,
    merge_left df_1 df_2 common ("_1", "_2") = Return joined
    /\ columns result = headings
    /\ data result
       = map (project (columns joined) headings)
           (filter (differs (columns joined) col_name)
              (flat_map (fan_out df_1 df_2 common) (data df_1)))
    /\ length (data result) <= length (data joined)
    /\ forall row,
         In row (data result) ->
         exists l rest,
           In l (data df_1)
           /\ row = project (columns joined) headings (l ++ rest).
Proof.
  unfold compare_dates.
  destruct (merge_left df_1 df_2 common ("_1", "_2")) as [joined|] eqn:EM;
    [|discriminate].
  simpl; pose proof (merge_left_fan_out _ _ _ _ _ EM) as Ed.
  destruct (for_each _ (data joined) []) as [differing|] eqn:EL;
    [|discriminate].
  apply compare_rows_return in EL; simpl in EL; subst differing.
  intro H; injection H as <-; simpl.
  exists joined; split; [reflexivity|]; split; [reflexivity|].
  split; [rewrite Ed; reflexivity|]; split.
  - rewrite length_map; apply filter_length_le.
  - intros row Hin; apply in_map_iff in Hin as (j & <- & Hj).
    apply filter_In in Hj as [Hj _]; rewrite Ed in Hj.
    apply in_flat_map in Hj as (l & Hl & Hj).
    destruct (fan_out_extends _ _ _ _ _ Hj) as (rest & ->).
    exists l, rest; split; [assumption | reflexivity].
Qed.

Lemma compare_dates_returns_left_rows_witness :
  exists joined,
    merge_left sd_table lp_table "StudentID" ("_1", "_2") = Return joined
    /\ columns (mkDataFrame ["StudentID"; "Start Date_1"; "Start Date_2"]
                  [[VStr "1002"; VStr "06/03/2020"; VStr "05/03/2020"];
                   [VStr "1004"; VStr "10/10/2020"; VStr "09/03/2020"]])
       = ["StudentID"; "Start Date_1"; "Start Date_2"]
    /\ data (mkDataFrame ["StudentID"; "Start Date_1"; "Start Date_2"]
               [[VStr "1002"; VStr "06/03/2020"; VStr "05/03/2020"];
                [VStr "1004"; VStr "10/10/2020"; VStr "09/03/2020"]])
       = map (project (columns joined)
                ["StudentID"; "Start Date_1"; "Start Date_2"])
           (filter (differs (columns joined) "Start Date")
              (flat_map (fan_out sd_table lp_table "StudentID")
                 (data sd_table)))
    /\ 2 <= length (data joined)
    /\ forall row,
         In row [[VStr "1002"; VStr "06/03/2020"; VStr "05/03/2020"];
                 [VStr "1004"; VStr "10/10/2020"; VStr "09/03/2020"]] ->
         exists l rest,
           In l (data sd_table)
           /\ row = project (columns joined)
                      ["StudentID"; "Start Date_1"; "Start Date_2"]
                      (l ++ rest).
Proof.
  apply (compare_dates_returns_left_rows sd_table lp_table
           (mkDataFrame ["StudentID"; "Start Date_1"; "Start Date_2"]
              [[VStr "1002"; VStr "06/03/2020"; VStr "05/03/2020"];
               [VStr "1004"; VStr "10/10/2020"; VStr "09/03/2020"]])
           "StudentID" "Start Date"
           ["StudentID"; "Start Date_1"; "Start Date_2"]).
  reflexivity.
Defined.

Lemma fan_out_not_nil (df_1 df_2 : DataFrame) (common : string)
  (l : list value) :
  fan_out df_1 df_2 common l <> [].
Proof.
  unfold fan_out.
  destruct (partners df_2 common (value_at (columns df_1) l common));
    discriminate.
Qed.

(** X14.  When the left table has a row and one of the two date labels,
    the date column with [_1] or with [_2], is not a label of the join - as
    when one of the tables lacks the date column - [compare_dates] raises
    [KeyError]. *)
Theorem compare_dates_unknown_date_column (df_1 df_2 joined : DataFrame)
  (common col_name : string) (headings : list string) :
  merge_left df_1 df_2 common ("_1", "_2") = Return joined ->
  data df_1 <> [] ->
  ~ In (col_name ++ "_1")%string (columns joined)
  \/ ~ In (col_name ++ "_2")%string (columns joined) ->
  compare_dates df_1 df_2 common col_name headings = Raise KeyError.
Proof.
  intros EM Hne Hmiss; unfold compare_dates; rewrite EM; simpl.
  rewrite (merge_left_fan_out _ _ _ _ _ EM).
  destruct (data df_1) as [|l ls]; [contradiction|]; simpl.
  pose proof (fan_out_not_nil df_1 df_2 common l) as Hf.
  destruct (fan_out df_1 df_2 common l) as [|j js]; [contradiction|]; simpl.
  unfold compare_row.
  destruct Hmiss as [H1|H2].
  - rewrite (loc_unknown _ _ _ H1); reflexivity.
  - rewrite (loc_unknown _ j _ H2); unfold loc.
    destruct (index_of (col_name ++ "_1") (columns joined)); reflexivity.
Qed.

Lemma compare_dates_unknown_date_column_witness :
  compare_dates lp_table
    (mkDataFrame ["StudentID"; "Course"] [[VStr "1001"; VStr "ABC"]])
    "StudentID" "Start Date" start_headings
  = Raise KeyError.
Proof.
  refine (compare_dates_unknown_date_column lp_table
            (mkDataFrame ["StudentID"; "Course"] [[VStr "1001"; VStr "ABC"]])
            _ "StudentID" "Start Date" start_headings eq_refl _ _).
  - discriminate.
  - left; simpl; intuition discriminate.
Defined.

Lemma compare_rows_unknown_heading (cols : list string) (col_name : string)
  (headings : list string) (rows : list (list value)) :
  In (col_name ++ "_1")%string cols -> In (col_name ++ "_2")%string cols ->
  Exists (fun h => ~ In h cols) headings ->
  for_each (compare_row cols col_name headings) rows []
  = if existsb (differs cols col_name) rows
    then Raise KeyError else Return [].
Proof.
  intros H1 H2 Hh; induction rows as [|row rows IH]; simpl; [reflexivity|].
  unfold compare_row at 1, differs at 1.
  rewrite (loc_value_at cols row _ H1), (loc_value_at cols row _ H2); simpl.
  destruct (ne _ _); simpl; [|exact IH].
  rewrite (loc_list_unknown cols row headings Hh); reflexivity.
Qed.

(** X15.  An output column that is not a label of the join goes unnoticed
    as long as no row differs: [compare_dates] then returns the empty table
    under the output columns as given, and raises [KeyError] only when a row
    of the join has two different dates. *)
Theorem compare_dates_unknown_heading (df_1 df_2 joined : DataFrame)
  (common col_name : string) (headings : list string) :
  merge_left df_1 df_2 common ("_1", "_2") = Return joined ->
  In (col_name ++ "_1")%string (columns joined) ->
  In (col_name ++ "_2")%string (columns joined) ->
  Exists (fun h => ~ In h (columns joined)) headings ->
  compare_dates df_1 df_2 common col_name headings
  = if existsb (differs (columns joined) col_name) (data joined)
    then Raise KeyError
    else Return (mkDataFrame headings []).
Proof.
  intros EM H1 H2 Hh; unfold compare_dates; rewrite EM; simpl.
  rewrite (compare_rows_unknown_heading _ _ _ _ H1 H2 Hh).
  destruct (existsb _ _); reflexivity.
Qed.

Lemma compare_dates_unknown_heading_witness :
  compare_dates
    (mkDataFrame lp_headings
       [[VStr "1001"; VStr "Ann"; VStr "ABC"; VStr "01/03/2020";
         VStr "01/03/2021"]])
    sd_table "StudentID" "Start Date" ["StudentID"; "Start Date"]
  = Return (mkDataFrame ["StudentID"; "Start Date"] []).
Proof.
  refine (compare_dates_unknown_heading
            (mkDataFrame lp_headings
               [[VStr "1001"; VStr "Ann"; VStr "ABC"; VStr "01/03/2020";
                 VStr "01/03/2021"]])
            sd_table _ "StudentID" "Start Date" ["StudentID"; "Start Date"]
            eq_refl _ _ _).
  - simpl; intuition.
  - simpl; intuition.
  - right; left; simpl; intuition discriminate.
Defined.

Lemma NoDup_index_of (cols : list string) (i : nat) (name : string) :
  NoDup cols -> nth_error cols i = Some name -> index_of name cols = Some i.
Proof.
  revert i; induction cols as [|c cs IH]; intros i Hn Hi.
  - destruct i; discriminate.
  - inversion Hn as [|? ? Hc Hn']; subst.
    destruct i as [|i]; simpl in *.
    + injection Hi as ->; rewrite String.eqb_refl; reflexivity.
    + destruct (c =? name)%string eqn:E.
      * apply String.eqb_eq in E; subst.
        exfalso; apply Hc; eapply nth_error_In; eassumption.
      * rewrite (IH i Hn' Hi); reflexivity.
Qed.

Lemma nth_error_remove_at {A} (l : list A) (j p : nat) :
  p <> j ->
  nth_error (remove_at j l) (if (p <? j)%nat then p else p - 1)
  = nth_error l p.
Proof.
  revert j p; induction l as [|x xs IH]; intros j p Hp.
  - destruct j; simpl; rewrite !nth_error_nil; reflexivity.
  - destruct j as [|j], p as [|p]; simpl.
    + contradiction.
    + rewrite Nat.sub_0_r; reflexivity.
    + reflexivity.
    + assert (Hp' : p <> j) by lia.
      specialize (IH j p Hp').
      change (S p <? S j)%nat with (p <? j)%nat.
      destruct (p <? j)%nat eqn:E.
      * exact IH.
      * apply Nat.ltb_ge in E.
        destruct p as [|p]; [lia|].
        simpl in *; rewrite Nat.sub_0_r in *; exact IH.
Qed.

Lemma nth_of_nth_error {A} (l : list A) (n : nat) (d : A) :
  nth n l d = match nth_error l n with
              | Some x => x
              | None => d
              end.
Proof.
  revert n; induction l as [|x xs IH]; intros [|n]; simpl; auto.
Qed.

Lemma compare_ok_facts (df_1 df_2 : DataFrame) (common col_name : string)
  (headings : list string) :
  compare_ok df_1 df_2 common col_name headings = true ->
  exists joined j,
    merge_left df_1 df_2 common ("_1", "_2") = Return joined
    /\ index_of common (columns df_2) = Some j
    /\ columns joined
       = suffixed (columns df_1) (columns df_2) common "_1"
         ++ remove_at j (suffixed (columns df_2) (columns df_1) common "_2")
    /\ NoDup (columns joined)
    /\ rectangular df_1 = true
    /\ (col_name =? common)%string = false
    /\ In col_name (columns df_1) /\ In col_name (columns df_2)
    /\ Forall (fun h => In h (columns joined)) headings.
Proof.
  unfold compare_ok.
  destruct (merge_left df_1 df_2 common ("_1", "_2")) as [joined|] eqn:EM;
    [|discriminate].
  intro H; repeat (apply andb_true_iff in H as [H ?]).
  unfold merge_left in EM.
  destruct (index_of common (columns df_1)) as [i|]; [|discriminate].
  destruct (index_of common (columns df_2)) as [j|] eqn:Hj; [|discriminate].
  injection EM as <-; simpl in *.
  eexists; exists j; split; [reflexivity|]; split; [reflexivity|].
  split; [reflexivity|].
  split; [apply distinct_NoDup; assumption|].
  split; [assumption|].
  split; [apply negb_true_iff; assumption|].
  split; [apply mem_In; assumption|].
  split; [apply mem_In; assumption|].
  apply Forall_forall; intros h Hin; apply mem_In.
  match goal with
  | Hh : forallb _ headings = true |- _ =>
      rewrite forallb_forall in Hh; apply Hh; assumption
  end.
Qed.

(** X16.  On inputs [compare_dates] is meant for, a left row and a right
    row with its key give a row of the join, and that row counts as
    differing exactly when the date of the left row and the date of the
    right row differ; it is then in the result. *)
Theorem matched_pair_differs_as_dates_differ (df_1 df_2 : DataFrame)
  (common col_name : string) (headings : list string) (l r : list value) :
  compare_ok df_1 df_2 common col_name headings = true ->
  In l (data df_1) ->
  In r (partners df_2 common (value_at (columns df_1) l common)) ->
  exists joined result,
    merge_left df_1 df_2 common ("_1", "_2") = Return joined
    /\ compare_dates df_1 df_2 common col_name headings = Return result
    /\ In (l ++ without_key df_2 common r) (data joined)
    /\ differs (columns joined) col_name (l ++ without_key df_2 common r)
       = ne (value_at (columns df_1) l col_name)
            (value_at (columns df_2) r col_name)
    /\ (ne (value_at (columns df_1) l col_name)
           (value_at (columns df_2) r col_name) = true ->
        In (project (columns joined) headings
              (l ++ without_key df_2 common r))
           (data result)).
Proof.
  intros Hok Hl Hr.
  destruct (compare_ok_facts _ _ _ _ _ Hok)
    as (joined & j & EM & Hj & Ecols & Hnd & R1 & Hc & M1 & M2 & Hh).
  pose proof (merge_left_fan_out _ _ _ _ _ EM) as Ed.
  assert (Ll : length l = length (columns df_1)).
  { unfold rectangular in R1; rewrite forallb_forall in R1.
    apply Nat.eqb_eq, R1; assumption. }
  assert (Ew : without_key df_2 common r = remove_at j r)
    by (unfold without_key; rewrite Hj; reflexivity).
  (* the left date *)
  destruct (index_of_In _ _ M1) as (p & Hp & Lp).
  assert (V1 : forall rest,
             value_at (columns joined) (l ++ rest) (col_name ++ "_1")
             = value_at (columns df_1) l col_name).
  { intro rest; unfold value_at at 1.
    rewrite (NoDup_index_of (columns joined) p (col_name ++ "_1") Hnd).
    - unfold value_at; rewrite Hp; apply app_nth1; lia.
    - rewrite Ecols, nth_error_app1 by (rewrite suffixed_length; assumption).
      apply suffixed_overlap;
        [apply index_of_nth; assumption | assumption | apply mem_In; assumption]. }
  (* the right date *)
  destruct (index_of_In _ _ M2) as (q & Hq & Lq).
  assert (Hqj : q <> j).
  { intros ->; apply index_of_nth in Hq, Hj; rewrite Hj in Hq.
    injection Hq as ->; rewrite String.eqb_refl in Hc; discriminate. }
  assert (V2 : value_at (columns joined) (l ++ remove_at j r) (col_name ++ "_2")
               = value_at (columns df_2) r col_name).
  { unfold value_at at 1.
    rewrite (NoDup_index_of (columns joined)
               (length (columns df_1) + (if (q <? j)%nat then q else q - 1))
               (col_name ++ "_2") Hnd).
    - unfold value_at; rewrite Hq, <- Ll, app_nth2_plus.
      rewrite !nth_of_nth_error, nth_error_remove_at by assumption.
      reflexivity.
    - rewrite Ecols, nth_error_app2 by (rewrite suffixed_length; lia).
      rewrite suffixed_length.
      replace (length (columns df_1)
               + (if (q <? j)%nat then q else q - 1) - length (columns df_1))
        with (if (q <? j)%nat then q else q - 1) by lia.
      rewrite nth_error_remove_at by assumption.
      apply suffixed_overlap;
        [apply index_of_nth; assumption | assumption | apply mem_In; assumption]. }
  assert (Hin : In (l ++ remove_at j r) (data joined)).
  { rewrite Ed; apply in_flat_map; exists l; split; [assumption|].
    unfold fan_out.
    destruct (partners df_2 common (value_at (columns df_1) l common))
      as [|m ms]; [contradiction|].
    rewrite <- Ew; apply (in_map (fun r => l ++ without_key df_2 common r));
      assumption. }
  assert (Hd : differs (columns joined) col_name (l ++ remove_at j r)
               = ne (value_at (columns df_1) l col_name)
                    (value_at (columns df_2) r col_name))
    by (unfold differs; rewrite V1, V2; reflexivity).
  assert (I1 : In (col_name ++ "_1")%string (columns joined)).
  { rewrite Ecols; apply in_or_app; left.
    eapply nth_error_In, suffixed_overlap;
      [apply index_of_nth; eassumption | assumption | apply mem_In; assumption]. }
  assert (I2 : In (col_name ++ "_2")%string (columns joined)).
  { rewrite Ecols; apply in_or_app; right.
    eapply remove_at_keeps; [|exact Hqj].
    apply suffixed_overlap;
      [apply index_of_nth; eassumption | assumption | apply mem_In; assumption]. }
  exists joined, (mkDataFrame headings
                    (map (project (columns joined) headings)
                       (filter (differs (columns joined) col_name)
                          (data joined)))).
  split; [assumption|]; split.
  { unfold compare_dates; rewrite EM; simpl.
    rewrite (compare_rows_differing _ _ _ _ I1 I2 Hh); reflexivity. }
  rewrite Ew; split; [assumption|]; split; [assumption|].
  intro Hne; simpl; apply in_map, filter_In; split; [assumption|].
  rewrite Hd; assumption.
Qed.

Lemma matched_pair_differs_as_dates_differ_witness :
  exists joined result,
    merge_left lp_table sd_table "StudentID" ("_1", "_2") = Return joined
    /\ compare_dates lp_table sd_table "StudentID" "Start Date" start_headings
       = Return result
    /\ In ([VStr "1004"; VStr "Di"; VStr "XYZ"; VStr "09/03/2020";
            VStr "09/03/2021"]
           ++ [VStr "QRS"; VStr "10/10/2020"; VStr "10/10/2021"])
         (data joined)
    /\ differs (columns joined) "Start Date"
         ([VStr "1004"; VStr "Di"; VStr "XYZ"; VStr "09/03/2020";
           VStr "09/03/2021"]
          ++ [VStr "QRS"; VStr "10/10/2020"; VStr "10/10/2021"])
       = true
    /\ (true = true ->
        In (project (columns joined) start_headings
              ([VStr "1004"; VStr "Di"; VStr "XYZ"; VStr "09/03/2020";
                VStr "09/03/2021"]
               ++ [VStr "QRS"; VStr "10/10/2020"; VStr "10/10/2021"]))
           (data result)).
Proof.
  apply (matched_pair_differs_as_dates_differ lp_table sd_table "StudentID"
           "Start Date" start_headings
           [VStr "1004"; VStr "Di"; VStr "XYZ"; VStr "09/03/2020";
            VStr "09/03/2021"]
           [VStr "1004"; VStr "QRS"; VStr "10/10/2020"; VStr "10/10/2021"]).
  - reflexivity.
  - simpl; auto.
  - simpl; auto.
Defined.

(* ================================================================= *)
(** ** More on loading *)

Lemma read_rows (file : list (list string)) :
  Forall (fun row => row <> []) file ->
  forall acc,
    for_each
      (fun row read_data =>
         (first <- getitem row 0 ;;
          if negb (in_none_empty first)
          then Return (read_data ++ [row])
          else Return read_data)%py)
      (map (map VStr) file) acc
    = Return (acc ++ kept file).
Proof.
  unfold kept; induction 1 as [|row rows Hrow _ IH]; intro acc.
  - simpl; rewrite app_nil_r; reflexivity.
  - destruct row as [|id fields]; [contradiction|].
    cbn [map filter has_id for_each]; unfold getitem at 1.
    cbn [nth_error obind in_none_empty].
    destruct (id =? "")%string; cbn [negb obind map]; rewrite IH;
      [reflexivity|].
    rewrite <- app_assoc; reflexivity.
Qed.

Lemma read_rows_blank (file : list (list string)) :
  In [] file ->
  forall acc,
    for_each
      (fun row read_data =>
         (first <- getitem row 0 ;;
          if negb (in_none_empty first)
          then Return (read_data ++ [row])
          else Return read_data)%py)
      (map (map VStr) file) acc
    = Raise IndexError.
Proof.
  induction file as [|row rows IH]; intros Hin acc; [contradiction|].
  destruct row as [|id fields]; [reflexivity|].
  destruct Hin as [Hin|Hin]; [discriminate|].
  cbn [map for_each]; unfold getitem at 1.
  cbn [nth_error obind in_none_empty].
  destruct (id =? "")%string; cbn [negb obind]; apply IH; assumption.
Qed.

Lemma kept_five_fields (file : list (list string)) :
  Forall (fun row => has_id row = true -> 5 <= length row) file ->
  Forall (fun student => 5 <= length student) (kept file).
Proof.
  unfold kept; induction 1 as [|row rows Hrow _ IH]; simpl; [constructor|].
  destruct (has_id row); simpl; [|exact IH].
  constructor; [rewrite length_map; auto | exact IH].
Qed.

Lemma load_data_kept (file : list (list string)) (t : list event) :
  Forall (fun row => row <> []) file ->
  Forall (fun row => has_id row = true -> 5 <= length row) file ->
  load_data file "edsd" t
  = (Return (kept file, false, []),
     t ++ error_log edsd_report (report edsd_contract IsError (kept file)))
  /\ load_data file "edlp" t
     = (Return (kept file, false, []),
        t ++ error_log edlp_report (report edlp_contract IsError (kept file))).
Proof.
  intros Hb H5; pose proof (kept_five_fields file H5) as Hk.
  unfold load_data, bind, lift; rewrite (read_rows file Hb); simpl.
  rewrite check_edsd_run, check_edlp_run by assumption.
  split; reflexivity.
Qed.

(** X17.  From a file without blank line, whose rows with a student ID have
    five fields, [load_data] returns the rows with a student ID, in the
    order of the file, after the validator of the source has looked at
    exactly these rows: a row without student ID is dropped and is reported
    nowhere.  The flag it returns is [False] and its list of warnings is
    empty. *)
Theorem load_data_validates_kept_rows (file : list (list string))
  (t : list event) :
  Forall (fun row => row <> []) file ->
  Forall (fun row => has_id row = true -> 5 <= length row) file ->
  load_data file "edsd" t
  = (Return (kept file, false, []),
     t ++ error_log edsd_report (report edsd_contract IsError (kept file)))
  /\ load_data file "edlp" t
     = (Return (kept file, false, []),
        t ++ error_log edlp_report (report edlp_contract IsError (kept file))).
Proof. apply load_data_kept. Qed.

Lemma load_data_validates_kept_rows_witness :
  load_data
    [["1"; ""; "T"; "1/01/2020"; "1/01/2021"]; [""; ""; ""];
     ["2"; "C"; "T"; "1/01/2020"; ""]] "edsd" []
  = (Return ([[VStr "1"; VStr ""; VStr "T"; VStr "1/01/2020"; VStr "1/01/2021"];
              [VStr "2"; VStr "C"; VStr "T"; VStr "1/01/2020"; VStr ""]],
             false, []),
     [ProcessErrorLog
        ["Course code is missing for student with Student ID 1";
         "Expiry Date is missing for student with Student ID 2"]
        edsd_report]).
Proof.
  refine (proj1 (load_data_validates_kept_rows
                   [["1"; ""; "T"; "1/01/2020"; "1/01/2021"]; [""; ""; ""];
                    ["2"; "C"; "T"; "1/01/2020"; ""]] [] _ _)).
  - repeat constructor; discriminate.
  - repeat constructor; simpl; try lia; discriminate.
Defined.

(** X18.  With a source code other than ["edlp"] and ["edsd"], [load_data]
    validates nothing: from a file without blank line it returns the rows
    with a student ID, whatever their fields are, and calls no sink. *)
Theorem load_data_unknown_source (file : list (list string))
  (source : string) (t : list event) :
  source <> "edlp" -> source <> "edsd" ->
  Forall (fun row => row <> []) file ->
  load_data file source t = (Return (kept file, false, []), t).
Proof.
  intros H1 H2 Hb; apply String.eqb_neq in H1, H2.
  unfold load_data, bind, lift; rewrite (read_rows file Hb), H1, H2.
  reflexivity.
Qed.

Lemma load_data_unknown_source_witness :
  load_data [["1"; ""]; [""; "x"]; ["2"]] "EDSD" []
  = (Return ([[VStr "1"; VStr ""]; [VStr "2"]], false, []), []).
Proof.
  apply (load_data_unknown_source [["1"; ""]; [""; "x"]; ["2"]] "EDSD" []).
  - discriminate.
  - discriminate.
  - repeat constructor; discriminate.
Defined.

(** X19.  [load_data] raises [IndexError], and calls no sink, on a file
    with a blank line, whatever the source code is, and, for the two sources
    it validates, on a file in which a row with a student ID has fewer than
    five fields. *)
Theorem load_data_raises (file : list (list string)) (source : string)
  (t : list event) :
  (In [] file -> load_data file source t = (Raise IndexError, t))
  /\ (Forall (fun row => row <> []) file ->
      Exists (fun row => has_id row = true /\ length row < 5) file ->
      load_data file "edsd" t = (Raise IndexError, t)
      /\ load_data file "edlp" t = (Raise IndexError, t)).
Proof.
  split.
  - intro Hin; unfold load_data, bind, lift.
    rewrite (read_rows_blank file Hin); reflexivity.
  - intros Hb Hex.
    assert (Hs : Exists (fun student => length student < 5) (kept file)).
    { unfold kept; clear Hb; induction Hex as [row rows [Hid Hl]|row rows _ IH];
        simpl.
      - rewrite Hid; left; rewrite length_map; assumption.
      - destruct (has_id row); [right|]; exact IH. }
    unfold load_data, bind, lift; rewrite (read_rows file Hb); simpl.
    destruct (validators_short_rows (kept file) t Hs) as [-> ->].
    split; reflexivity.
Qed.

Lemma load_data_raises_witness :
  load_data [["1"; "C"; "T"; "d"; "e"]; []] "edsd" [] = (Raise IndexError, [])
  /\ load_data [["1"; "C"; "T"; "d"]] "edlp" [] = (Raise IndexError, []).
Proof.
  split.
  - apply (proj1 (load_data_raises [["1"; "C"; "T"; "d"; "e"]; []] "edsd" [])).
    simpl; auto.
  - apply (proj2 (load_data_raises [["1"; "C"; "T"; "d"]] "edlp" [])).
    + repeat constructor; discriminate.
    + left; split; [reflexivity | simpl; lia].
Defined.

(** X20.  On inputs [compare_dates] is meant for, when the right table has
    no row, every row of the left table is reported, once and in order,
    with a null marker as right-hand date. *)
Theorem compare_dates_empty_right (df_1 df_2 : DataFrame)
  (common col_name : string) (headings : list string) :
  compare_ok df_1 df_2 common col_name headings = true ->
  data df_2 = [] ->
  exists joined,
    merge_left df_1 df_2 common ("_1", "_2") = Return joined
    /\ compare_dates df_1 df_2 common col_name headings
       = Return (mkDataFrame headings
                   (map (fun l => project (columns joined) headings
                                    (l ++ null_row df_2))
                      (data df_1)))
    /\ forall l,
         In l (data df_1) ->
         value_at (columns joined) (l ++ null_row df_2) (col_name ++ "_2")
         = VNaN.
Proof.
  intros Hok He.
  destruct (compare_ok_facts _ _ _ _ _ Hok)
    as (joined & j & EM & Hj & Ecols & Hnd & R1 & Hc & M1 & M2 & Hh).
  pose proof (merge_left_fan_out _ _ _ _ _ EM) as Ed.
  destruct (merge_left_date_columns _ _ _ _ _ EM Hc M1 M2)
    as (right_cols & Ecols' & In1 & In2).
  assert (I1 : In (col_name ++ "_1")%string (columns joined))
    by (rewrite Ecols'; apply in_or_app; left; assumption).
  assert (I2 : In (col_name ++ "_2")%string (columns joined))
    by (rewrite Ecols'; apply in_or_app; right; assumption).
  assert (Enull : forall l, In l (data df_1) ->
            value_at (columns joined) (l ++ null_row df_2) (col_name ++ "_2")
            = VNaN).
  { intros l Hl; rewrite Ecols'; unfold null_row; apply value_at_null.
    - rewrite suffixed_length. unfold rectangular in R1.
      rewrite forallb_forall in R1. apply Nat.eqb_eq, R1; assumption.
    - rewrite <- Ecols'; assumption.
    - assumption. }
  assert (Erows :
            map (project (columns joined) headings)
              (filter (differs (columns joined) col_name)
                 (flat_map (fan_out df_1 df_2 common) (data df_1)))
            = map (fun l => project (columns joined) headings
                              (l ++ null_row df_2))
                (data df_1)).
  { clear Hok Ed R1; revert Enull.
    induction (data df_1) as [|l ls IH]; intro Enull; simpl; [reflexivity|].
    unfold fan_out at 1, partners; rewrite He; simpl.
    unfold differs at 1; rewrite (Enull l) by (left; reflexivity).
    replace (ne (value_at (columns joined) (l ++ null_row df_2)
                   (col_name ++ "_1")) VNaN) with true
      by (destruct (value_at _ _ (col_name ++ "_1")); reflexivity).
    simpl; f_equal; apply IH; intros; apply Enull; right; assumption. }
  exists joined; split; [assumption|]; split; [|assumption].
  unfold compare_dates; rewrite EM; simpl.
  rewrite (compare_rows_differing _ _ _ _ I1 I2 Hh), Ed, Erows; reflexivity.
Qed.

Lemma compare_dates_empty_right_witness :
  exists joined,
    merge_left lp_table (mkDataFrame sd_headings []) "StudentID" ("_1", "_2")
    = Return joined
    /\ compare_dates lp_table (mkDataFrame sd_headings []) "StudentID"
         "Expiry Date" ["StudentID"; "Expiry Date_2"]
       = Return (mkDataFrame ["StudentID"; "Expiry Date_2"]
                   (map (fun l => project (columns joined)
                                    ["StudentID"; "Expiry Date_2"]
                                    (l ++ null_row (mkDataFrame sd_headings [])))
                      (data lp_table)))
    /\ forall l,
         In l (data lp_table) ->
         value_at (columns joined) (l ++ null_row (mkDataFrame sd_headings []))
           ("Expiry Date" ++ "_2")
         = VNaN.
Proof.
  apply (compare_dates_empty_right lp_table (mkDataFrame sd_headings [])
           "StudentID" "Expiry Date" ["StudentID"; "Expiry Date_2"]);
    reflexivity.
Defined.

(* ================================================================= *)
(** ** The two exports *)

Lemma filter_nil_inv {A} (p : A -> bool) (xs : list A) :
  filter p xs = [] -> forall x, In x xs -> p x = false.
Proof.
  induction xs as [|y ys IH]; simpl; intros H x Hin; [contradiction|].
  destruct (p y) eqn:E; [discriminate|].
  destruct Hin as [<-|Hin]; [assumption | apply IH; assumption].
Qed.

Lemma merge_frames (lp_data sd_data : list (list value)) :
  merge_left (lp_frame lp_data) (sd_frame sd_data) "StudentID" ("_1", "_2")
  = Return (mkDataFrame joined_headings
              (flat_map (fan_out (lp_frame lp_data) (sd_frame sd_data)
                           "StudentID") lp_data)).
Proof.
  unfold merge_left.
  change (index_of "StudentID" (columns (lp_frame lp_data))) with (Some 0).
  change (index_of "StudentID" (columns (sd_frame sd_data))) with (Some 0).
  cbv iota; reflexivity.
Qed.

Lemma compare_frames (lp_data sd_data : list (list value))
  (col_name : string) (headings : list string) :
  In (col_name ++ "_1")%string joined_headings ->
  In (col_name ++ "_2")%string joined_headings ->
  Forall (fun h => In h joined_headings) headings ->
  compare_dates (lp_frame lp_data) (sd_frame sd_data) "StudentID" col_name
    headings
  = Return (mkDataFrame headings
              (map (project joined_headings headings)
                 (filter (differs joined_headings col_name)
                    (flat_map (fan_out (lp_frame lp_data) (sd_frame sd_data)
                                 "StudentID") lp_data)))).
Proof.
  intros H1 H2 Hh; unfold compare_dates; rewrite merge_frames.
  cbn [obind columns data].
  rewrite (compare_rows_differing _ _ _ _ H1 H2 Hh); reflexivity.
Qed.

Lemma five_values (l : list value) :
  length l = 5 -> exists a b c d e, l = [a; b; c; d; e].
Proof.
  destruct l as [|a [|b [|c [|d [|e [|]]]]]]; simpl; intro H; try discriminate.
  repeat eexists.
Qed.

Lemma four_values (r : list value) :
  length r = 4 -> exists k x y z, r = [k; x; y; z].
Proof.
  destruct r as [|k [|x [|y [|z [|]]]]]; simpl; intro H; try discriminate.
  repeat eexists.
Qed.

(** The rows of the join of the two frames: a learning-platform row with
    null markers when no student-database row has its student ID, and with
    the course and dates of each student-database row that has it. *)
Lemma joined_rows_iff (lp_data sd_data : list (list value))
  (joined_row : list value) :
  Forall (fun l => length l = 5) lp_data ->
  Forall (fun r => length r = 4) sd_data ->
  In joined_row
    (flat_map (fan_out (lp_frame lp_data) (sd_frame sd_data) "StudentID")
       lp_data)
  <-> exists sid name code start expiry x y z,
        In [sid; name; code; start; expiry] lp_data
        /\ joined_row = [sid; name; code; start; expiry; x; y; z]
        /\ ((x = VNaN /\ y = VNaN /\ z = VNaN
             /\ forall r, In r sd_data -> key_eq sid (nth 0 r VNaN) = false)
            \/ exists sd_sid,
                 In [sd_sid; x; y; z] sd_data /\ key_eq sid sd_sid = true).
Proof.
  intros F5 F4; rewrite Forall_forall in F5, F4.
  rewrite in_flat_map; split.
  - intros (l & Hl & Hj).
    destruct (five_values l (F5 l Hl)) as (a & b & c & d & e & ->).
    exists a, b, c, d, e.
    unfold fan_out in Hj.
    change (value_at (columns (lp_frame lp_data)) [a; b; c; d; e] "StudentID")
      with a in Hj.
    destruct (partners (sd_frame sd_data) "StudentID" a) as [|m ms] eqn:Ep.
    + destruct Hj as [<-|[]].
      exists VNaN, VNaN, VNaN; split; [assumption|]; split; [reflexivity|].
      left; repeat split.
      intros r Hr; exact (filter_nil_inv _ _ Ep r Hr).
    + apply in_map_iff in Hj as (r & <- & Hr).
      rewrite <- Ep in Hr; apply filter_In in Hr as [Hr Hk].
      destruct (four_values r (F4 r Hr)) as (k & x & y & z & ->).
      exists x, y, z; split; [assumption|]; split; [reflexivity|].
      right; exists k; split; assumption.
  - intros (a & b & c & d & e & x & y & z & Hl & -> & Hcase).
    exists [a; b; c; d; e]; split; [assumption|].
    unfold fan_out.
    change (value_at (columns (lp_frame lp_data)) [a; b; c; d; e] "StudentID")
      with a.
    destruct Hcase as [(-> & -> & -> & Hnone)|(k & Hr & Hk)].
    + assert (Ep : partners (sd_frame sd_data) "StudentID" a = [])
        by (apply filter_none; intros r Hr; exact (Hnone r Hr)).
      rewrite Ep; left; reflexivity.
    + assert (Hp : In [k; x; y; z] (partners (sd_frame sd_data) "StudentID" a))
        by (apply filter_In; split; assumption).
      destruct (partners (sd_frame sd_data) "StudentID" a) as [|m ms];
        [contradiction|].
      apply in_map_iff; exists [k; x; y; z]; split; [reflexivity | assumption].
Qed.

(** X21.  For cleaned tables of five and four fields, the two comparisons
    of [process_enrolment_dates] return, and a row is in the table of start
    dates exactly when it is student ID, name, course and start date of a
    learning-platform row, followed by a different start date that a
    student-database row with the same student ID has, or by the null marker
    when no student-database row has that student ID; likewise for the table
    of expiry dates. *)
Theorem exports_list_disagreements (lp_data sd_data : list (list value)) :
  Forall (fun l => length l = 5) lp_data ->
  Forall (fun r => length r = 4) sd_data ->
  exists start expiry,
    compare_dates (lp_frame lp_data) (sd_frame sd_data) "StudentID"
      "Start Date" start_headings = Return start
    /\ compare_dates (lp_frame lp_data) (sd_frame sd_data) "StudentID"
         "Expiry Date" expiry_headings = Return expiry
    /\ columns start = start_headings
    /\ columns expiry = expiry_headings
    /\ (forall row,
           In row (data start)
           <-> exists sid name code lp_start lp_expiry sd_start,
                 In [sid; name; code; lp_start; lp_expiry] lp_data
                 /\ row = [sid; name; code; lp_start; sd_start]
                 /\ ne lp_start sd_start = true
                 /\ ((sd_start = VNaN
                      /\ forall r, In r sd_data ->
                                   key_eq sid (nth 0 r VNaN) = false)
                     \/ exists sd_sid course sd_expiry,
                          In [sd_sid; course; sd_start; sd_expiry] sd_data
                          /\ key_eq sid sd_sid = true))
    /\ (forall row,
           In row (data expiry)
           <-> exists sid name code lp_start lp_expiry sd_expiry,
                 In [sid; name; code; lp_start; lp_expiry] lp_data
                 /\ row = [sid; name; code; lp_expiry; sd_expiry]
                 /\ ne lp_expiry sd_expiry = true
                 /\ ((sd_expiry = VNaN
                      /\ forall r, In r sd_data ->
                                   key_eq sid (nth 0 r VNaN) = false)
                     \/ exists sd_sid course sd_start,
                          In [sd_sid; course; sd_start; sd_expiry] sd_data
                          /\ key_eq sid sd_sid = true)).
Proof.
  intros F5 F4.
  assert (Es : compare_dates (lp_frame lp_data) (sd_frame sd_data) "StudentID"
                 "Start Date" start_headings = _)
    by (apply compare_frames; [simpl; auto 12 | simpl; auto 12 |
        repeat constructor; simpl; auto 12]).
  assert (Ee : compare_dates (lp_frame lp_data) (sd_frame sd_data) "StudentID"
                 "Expiry Date" expiry_headings = _)
    by (apply compare_frames; [simpl; auto 12 | simpl; auto 12 |
        repeat constructor; simpl; auto 12]).
  do 2 eexists; split; [exact Es|]; split; [exact Ee|].
  split; [reflexivity|]; split; [reflexivity|].
  cbn [data]; split; intro row; rewrite in_map_iff; split.
  - intros (j & <- & Hj); apply filter_In in Hj as [Hj Hd].
    apply (joined_rows_iff lp_data sd_data j F5 F4) in Hj
      as (a & b & c & d & e & x & y & z & Hl & -> & Hcase).
    exists a, b, c, d, e, y; split; [assumption|]; split; [reflexivity|].
    split; [exact Hd|].
    destruct Hcase as [(-> & -> & -> & Hnone)|(k & Hr & Hk)].
    + left; split; [reflexivity | assumption].
    + right; exists k, x, z; split; assumption.
  - intros (a & b & c & d & e & y & Hl & -> & Hne & Hcase).
    destruct Hcase as [(-> & Hnone)|(k & x & z & Hr & Hk)].
    + exists [a; b; c; d; e; VNaN; VNaN; VNaN]; split; [reflexivity|].
      apply filter_In; split; [|exact Hne].
      apply (joined_rows_iff lp_data sd_data _ F5 F4).
      exists a, b, c, d, e, VNaN, VNaN, VNaN.
      split; [assumption|]; split; [reflexivity|].
      left; repeat split; assumption.
    + exists [a; b; c; d; e; x; y; z]; split; [reflexivity|].
      apply filter_In; split; [|exact Hne].
      apply (joined_rows_iff lp_data sd_data _ F5 F4).
      exists a, b, c, d, e, x, y, z.
      split; [assumption|]; split; [reflexivity|].
      right; exists k; split; assumption.
  - intros (j & <- & Hj); apply filter_In in Hj as [Hj Hd].
    apply (joined_rows_iff lp_data sd_data j F5 F4) in Hj
      as (a & b & c & d & e & x & y & z & Hl & -> & Hcase).
    exists a, b, c, d, e, z; split; [assumption|]; split; [reflexivity|].
    split; [exact Hd|].
    destruct Hcase as [(-> & -> & -> & Hnone)|(k & Hr & Hk)].
    + left; split; [reflexivity | assumption].
    + right; exists k, x, y; split; assumption.
  - intros (a & b & c & d & e & z & Hl & -> & Hne & Hcase).
    destruct Hcase as [(-> & Hnone)|(k & x & y & Hr & Hk)].
    + exists [a; b; c; d; e; VNaN; VNaN; VNaN]; split; [reflexivity|].
      apply filter_In; split; [|exact Hne].
      apply (joined_rows_iff lp_data sd_data _ F5 F4).
      exists a, b, c, d, e, VNaN, VNaN, VNaN.
      split; [assumption|]; split; [reflexivity|].
      left; repeat split; assumption.
    + exists [a; b; c; d; e; x; y; z]; split; [reflexivity|].
      apply filter_In; split; [|exact Hne].
      apply (joined_rows_iff lp_data sd_data _ F5 F4).
      exists a, b, c, d, e, x, y, z.
      split; [assumption|]; split; [reflexivity|].
      right; exists k; split; assumption.
Qed.

Lemma exports_list_disagreements_witness :
  exists start expiry,
    compare_dates (lp_frame (data lp_table)) (sd_frame (data sd_table))
      "StudentID" "Start Date" start_headings = Return start
    /\ compare_dates (lp_frame (data lp_table)) (sd_frame (data sd_table))
         "StudentID" "Expiry Date" expiry_headings = Return expiry
    /\ In [VStr "1003"; VStr "Cy"; VStr "XYZ"; VStr "07/03/2020"; VNaN]
         (data start)
    /\ In [VStr "1004"; VStr "Di"; VStr "XYZ"; VStr "09/03/2021";
           VStr "10/10/2021"]
         (data expiry).
Proof.
  destruct (exports_list_disagreements (data lp_table) (data sd_table))
    as (start & expiry & Es & Ee & _ & _ & Hs & He).
  - repeat constructor.
  - repeat constructor.
  - exists start, expiry; split; [exact Es|]; split; [exact Ee|]; split.
    + apply Hs.
      exists (VStr "1003"), (VStr "Cy"), (VStr "XYZ"), (VStr "07/03/2020"),
        (VStr "07/03/2021"), VNaN.
      split; [simpl; auto|]; split; [reflexivity|]; split; [reflexivity|].
      left; split; [reflexivity|].
      intros r [<-|[<-|[<-|[<-|[]]]]]; reflexivity.
    + apply He.
      exists (VStr "1004"), (VStr "Di"), (VStr "XYZ"), (VStr "09/03/2020"),
        (VStr "09/03/2021"), (VStr "10/10/2021").
      split; [simpl; auto|]; split; [reflexivity|]; split; [reflexivity|].
      right; exists (VStr "1004"), (VStr "QRS"), (VStr "10/10/2020").
      split; [simpl; auto | reflexivity].
Defined.

(* ================================================================= *)
(** ** A run on well-formed files *)

Lemma kept_strings (file : list (list string)) :
  Forall (fun row => has_id row = true -> 5 <= length row) file ->
  Forall (fun student => strings_at [0; 1; 3; 4] student = true) (kept file).
Proof.
  unfold kept; induction 1 as [|row rows Hrow _ IH]; simpl; [constructor|].
  destruct (has_id row); simpl; [|exact IH].
  constructor; [|exact IH].
  specialize (Hrow eq_refl).
  destruct row as [|a [|b [|c [|d [|e rest]]]]]; simpl in Hrow; try lia.
  reflexivity.
Qed.

Lemma clean_sd_data_rows (raw_data : list (list value)) :
  Forall (fun student => strings_at [0; 1; 3; 4] student = true) raw_data ->
  exists cleaned,
    clean_sd_data raw_data = Return cleaned
    /\ Forall (fun row => length row = 4) cleaned.
Proof.
  intro H0.
  pose (row_of := fun student =>
                    [VStr (strip_str (field student 0));
                     VStr (strip_str (field student 1));
                     VStr (padDay (field student 3));
                     VStr (padDay (field student 4))]).
  exists (map row_of raw_data); split.
  - unfold clean_sd_data.
    rewrite (for_each_collect clean_sd_student raw_data (map row_of raw_data));
      [reflexivity|].
    induction H0; simpl; constructor; auto using clean_sd_student_ok.
  - apply Forall_forall; intros row Hin.
    apply in_map_iff in Hin as (student & <- & _); reflexivity.
Qed.

Lemma new_rectangular (rows : list (list value)) (headings : list string) :
  Forall (fun row => length row = length headings) rows ->
  Pandas.new rows headings = Return (mkDataFrame headings rows).
Proof.
  intro F; unfold Pandas.new.
  replace (forallb _ rows) with true; [reflexivity|].
  symmetry; apply forallb_forall; intros row Hin; apply Nat.eqb_eq.
  rewrite Forall_forall in F; auto.
Qed.

(** X22.  On two files without blank line, whose rows with a student ID
    have five fields, and whose learning-platform rows the collaborators
    accept, a run goes through: it confirms the files, lets each validator
    log its errors, exports the table of start dates and the table of expiry
    dates that [compare_dates] returns for the cleaned rows, under the
    renamed date columns, and ends with the warning log. *)
Theorem run_on_well_formed_files `{Collaborators}
  (lp_file sd_file : list (list string)) :
  Forall (fun row => row <> []) lp_file ->
  Forall (fun row => has_id row = true -> 5 <= length row) lp_file ->
  Forall (fun row => row <> []) sd_file ->
  Forall (fun row => has_id row = true -> 5 <= length row) sd_file ->
  Forall (fun student => lp_row_ok student = true) (kept lp_file) ->
  exists lp_data sd_data start expiry,
    clean_lp_data (kept lp_file) = Return lp_data
    /\ clean_sd_data (kept sd_file) = Return sd_data
    /\ compare_dates (lp_frame lp_data) (sd_frame sd_data) "StudentID"
         "Start Date" start_headings = Return start
    /\ compare_dates (lp_frame lp_data) (sd_frame sd_data) "StudentID"
         "Expiry Date" expiry_headings = Return expiry
    /\ run (process_enrolment_dates lp_file sd_file)
       = (Return tt,
          [ConfirmFiles "Enrolment Dates Report"
             ["Enrolment Dates (Learning Platform)";
              "Enrolment Dates (Student Databse)"]]
          ++ error_log edlp_report
               (report edlp_contract IsError (kept lp_file))
          ++ error_log edsd_report
               (report edsd_contract IsError (kept sd_file))
          ++ [ToExcel
                (mkDataFrame
                   ["StudentID"; "Student"; "Course_1"; "Start Date LP";
                    "Start Date SD"] (data start))
                ("Start_Dates_" ++ generate_time_string 0 ++ ".xls")%string;
              ToExcel
                (mkDataFrame
                   ["StudentID"; "Student"; "Course_1"; "Expiry Date LP";
                    "Expiry Date SD"] (data expiry))
                ("Expiry_Dates_" ++ generate_time_string 1 ++ ".xls")%string;
              ProcessWarningLog [dates_header] false]).
Proof.
  intros Lb L5 Sb S5 Lok.
  destruct (clean_lp_data_filter (kept lp_file) Lok) as (rows & _ & Hshape & Elp).
  set (lp_data := filter (fun row => negb (is_skip row)) rows) in *.
  assert (F5 : Forall (fun l => length l = 5) lp_data).
  { apply Forall_forall; intros row Hin; apply filter_In in Hin as [Hin _].
    rewrite Forall_forall in Hshape.
    destruct (Hshape row Hin) as (a & b & code & d & e & ->); reflexivity. }
  destruct (clean_sd_data_rows (kept sd_file) (kept_strings sd_file S5))
    as (sd_data & Esd & F4).
  assert (Es : compare_dates (lp_frame lp_data) (sd_frame sd_data) "StudentID"
                 "Start Date" start_headings = _)
    by (apply compare_frames; [simpl; auto 12 | simpl; auto 12 |
        repeat constructor; simpl; auto 12]).
  assert (Ee : compare_dates (lp_frame lp_data) (sd_frame sd_data) "StudentID"
                 "Expiry Date" expiry_headings = _)
    by (apply compare_frames; [simpl; auto 12 | simpl; auto 12 |
        repeat constructor; simpl; auto 12]).
  exists lp_data, sd_data; do 2 eexists.
  split; [exact Elp|]; split; [exact Esd|].
  split; [exact Es|]; split; [exact Ee|].
  unfold run, process_enrolment_dates.
  cbv beta iota zeta delta [bind call lift ret].
  rewrite (proj2 (load_data_kept lp_file _ Lb L5)).
  cbv beta iota.
  rewrite Elp.
  rewrite (new_rectangular lp_data
             ["StudentID"; "Student"; "Course"; "Start Date"; "Expiry Date"]
             F5).
  rewrite (proj1 (load_data_kept sd_file _ Sb S5)).
  cbv beta iota.
  rewrite Esd.
  rewrite (new_rectangular sd_data
             ["StudentID"; "Course"; "Start Date"; "Expiry Date"] F4).
  fold lp_headings sd_headings.
  fold (lp_frame lp_data) (sd_frame sd_data).
  fold start_headings expiry_headings; rewrite Es, Ee.
  rewrite <- !app_assoc; reflexivity.
Qed.

Lemma run_on_well_formed_files_witness :
  exists lp_data sd_data start expiry,
    @clean_lp_data scenario
      (kept [["1001"; "Ann"; "ABC"; "2020-03-01 00:00:00"; ""];
             ["1002"; "Ben"; "Skip"; "2020-03-01 00:00:00"; ""]])
    = Return lp_data
    /\ clean_sd_data (kept [["1001"; ""; "T"; "2/03/2020"; ""]])
       = Return sd_data
    /\ compare_dates (lp_frame lp_data) (sd_frame sd_data) "StudentID"
         "Start Date" start_headings = Return start
    /\ compare_dates (lp_frame lp_data) (sd_frame sd_data) "StudentID"
         "Expiry Date" expiry_headings = Return expiry
    /\ run (@process_enrolment_dates scenario
              [["1001"; "Ann"; "ABC"; "2020-03-01 00:00:00"; ""];
               ["1002"; "Ben"; "Skip"; "2020-03-01 00:00:00"; ""]]
              [["1001"; ""; "T"; "2/03/2020"; ""]])
       = (Return tt,
          [ConfirmFiles "Enrolment Dates Report"
             ["Enrolment Dates (Learning Platform)";
              "Enrolment Dates (Student Databse)"]]
          ++ error_log edlp_report
               (report edlp_contract IsError
                  (kept [["1001"; "Ann"; "ABC"; "2020-03-01 00:00:00"; ""];
                         ["1002"; "Ben"; "Skip"; "2020-03-01 00:00:00"; ""]]))
          ++ error_log edsd_report
               (report edsd_contract IsError
                  (kept [["1001"; ""; "T"; "2/03/2020"; ""]]))
          ++ [ToExcel
                (mkDataFrame
                   ["StudentID"; "Student"; "Course_1"; "Start Date LP";
                    "Start Date SD"] (data start))
                ("Start_Dates_" ++ @generate_time_string scenario 0
                 ++ ".xls")%string;
              ToExcel
                (mkDataFrame
                   ["StudentID"; "Student"; "Course_1"; "Expiry Date LP";
                    "Expiry Date SD"] (data expiry))
                ("Expiry_Dates_" ++ @generate_time_string scenario 1
                 ++ ".xls")%string;
              ProcessWarningLog [dates_header] false]).
Proof.
  apply (@run_on_well_formed_files scenario
           [["1001"; "Ann"; "ABC"; "2020-03-01 00:00:00"; ""];
            ["1002"; "Ben"; "Skip"; "2020-03-01 00:00:00"; ""]]
           [["1001"; ""; "T"; "2/03/2020"; ""]]).
  - repeat constructor; discriminate.
  - repeat constructor; simpl; lia.
  - repeat constructor; discriminate.
  - repeat constructor; simpl; lia.
  - repeat constructor.
Defined.

Lemma clean_lp_data_returns_ok `{Collaborators}
  (raw_data cleaned : list (list value)) :
  clean_lp_data raw_data = Return cleaned ->
  Forall (fun student => lp_row_ok student = true) raw_data.
Proof.
  intro Hret; unfold clean_lp_data in Hret.
  destruct (for_each _ raw_data []) as [rows|] eqn:E; [|discriminate].
  apply for_each_collect_inv in E as (rows' & H2 & _).
  clear Hret; induction H2 as [|student row raw rs Hs _ IH]; constructor.
  - apply (clean_lp_student_returns student row Hs).
  - apply IH.
Qed.

(** X23.  A learning-platform enrolment that the cleaner drops for its
    course code ["Skip"] is in neither export: whatever the student database
    holds, no row of the table of start dates and no row of the table of
    expiry dates made from the cleaned rows has the course code ["Skip"]. *)
Theorem skip_rows_are_not_exported `{Collaborators}
  (raw_data lp_data sd_data : list (list value)) (start expiry : DataFrame) :
  clean_lp_data raw_data = Return lp_data ->
  compare_dates (lp_frame lp_data) (sd_frame sd_data) "StudentID"
    "Start Date" start_headings = Return start ->
  compare_dates (lp_frame lp_data) (sd_frame sd_data) "StudentID"
    "Expiry Date" expiry_headings = Return expiry ->
  Forall (fun row => is_skip row = false) (data start)
  /\ Forall (fun row => is_skip row = false) (data expiry).
Proof.
  intros Elp Es Ee.
  destruct (clean_lp_data_filter raw_data
              (clean_lp_data_returns_ok raw_data lp_data Elp))
    as (rows & _ & Hshape & E).
  rewrite E in Elp; injection Elp as <-.
  assert (Hl : forall l,
             In l (filter (fun row => negb (is_skip row)) rows) ->
             exists a b code d e,
               l = [a; b; VStr code; d; e] /\ (code =? "Skip")%string = false).
  { intros l Hin; apply filter_In in Hin as [Hin Hk].
    rewrite Forall_forall in Hshape.
    destruct (Hshape l Hin) as (a & b & code & d & e & ->).
    exists a, b, code, d, e; split; [reflexivity|].
    apply negb_true_iff in Hk; exact Hk. }
  set (lp_data := filter (fun row => negb (is_skip row)) rows) in *.
  assert (Es' : compare_dates (lp_frame lp_data) (sd_frame sd_data)
                  "StudentID" "Start Date" start_headings = _)
    by (apply compare_frames; [simpl; auto 12 | simpl; auto 12 |
        repeat constructor; simpl; auto 12]).
  assert (Ee' : compare_dates (lp_frame lp_data) (sd_frame sd_data)
                  "StudentID" "Expiry Date" expiry_headings = _)
    by (apply compare_frames; [simpl; auto 12 | simpl; auto 12 |
        repeat constructor; simpl; auto 12]).
  rewrite Es' in Es; rewrite Ee' in Ee.
  injection Es as <-; injection Ee as <-; cbn [data].
  split; apply Forall_forall; intros row Hin;
    apply in_map_iff in Hin as (j & <- & Hj);
    apply filter_In in Hj as [Hj _];
    apply in_flat_map in Hj as (l & Hin & Hj);
    destruct (fan_out_extends _ _ _ _ _ Hj) as (rest & ->);
    destruct (Hl l Hin) as (a & b & code & d & e & -> & Hk);
    exact Hk.
Qed.

Lemma skip_rows_are_not_exported_witness :
  Forall (fun row => is_skip row = false)
    [[VStr "1001"; VStr "Ann"; VStr "ABC"; VStr "01/03/2020"; VNaN]]
  /\ Forall (fun row => is_skip row = false)
       [[VStr "1001"; VStr "Ann"; VStr "ABC"; VStr "01/03/2021"; VNaN]].
Proof.
  apply (@skip_rows_are_not_exported scenario
           [[VStr "1001"; VStr "Ann"; VStr "ABC"; VStr "2020-03-01 00:00:00";
             VStr "2021-03-01 00:00:00"];
            [VStr "1002"; VStr "Ben"; VStr " Skip"; VStr "2020-03-01 00:00:00";
             VStr "2021-03-01 00:00:00"]]
           [[VStr "1001"; VStr "Ann"; VStr "ABC"; VStr "01/03/2020";
             VStr "01/03/2021"]]
           []
           (mkDataFrame start_headings
              [[VStr "1001"; VStr "Ann"; VStr "ABC"; VStr "01/03/2020"; VNaN]])
           (mkDataFrame expiry_headings
              [[VStr "1001"; VStr "Ann"; VStr "ABC"; VStr "01/03/2021"; VNaN]]));
    reflexivity.
Defined.

Lemma keeps_call_forall (Q : event -> Prop) (e : event) :
  Q e -> keeps (Forall Q) (call e).
Proof.
  intros He t Ht; unfold call; simpl.
  apply Forall_app; split; [assumption | constructor; [assumption | constructor]].
Qed.

Ltac keeps_no_export :=
  first [ apply keeps_ret
        | apply keeps_lift
        | apply keeps_call_forall; exact I
        | apply keeps_bind; [|intro]
        | match goal with
          | |- keeps _ (if ?b then _ else _) => destruct b
          | |- keeps _ (let '(_, _) := ?p in _) => destruct p
          end ].

Lemma load_data_no_export (file : list (list string)) (source : string) :
  keeps (Forall no_export) (load_data file source).
Proof.
  unfold load_data, check_edlp, check_edsd; repeat keeps_no_export.
Qed.

Lemma new_returns (rows : list (list value)) (headings : list string)
  (df : DataFrame) :
  Pandas.new rows headings = Return df -> df = mkDataFrame headings rows.
Proof.
  unfold Pandas.new; destruct (forallb _ rows); [|discriminate].
  intro E; injection E as <-; reflexivity.
Qed.

(** X24.  Whatever the two files hold, a run exports both tables or none:
    either it returns, and its calls end with the export of the start
    dates, the export of the expiry dates and the warning log, with no export
    before them, or it raises, and has exported nothing. *)
Theorem run_exports_both_or_nothing `{Collaborators}
  (lp_file sd_file : list (list string)) :
  (exists t start expiry f_start f_expiry,
      Forall no_export t
      /\ run (process_enrolment_dates lp_file sd_file)
         = (Return tt,
            t ++ [ToExcel start f_start; ToExcel expiry f_expiry;
                  ProcessWarningLog [dates_header] false]))
  \/ (exists e t,
         Forall no_export t
         /\ run (process_enrolment_dates lp_file sd_file) = (Raise e, t)).
Proof.
  unfold run, process_enrolment_dates.
  cbv beta iota zeta delta [bind call lift ret].
  set (t0 := [] ++ [ConfirmFiles "Enrolment Dates Report"
                      ["Enrolment Dates (Learning Platform)";
                       "Enrolment Dates (Student Databse)"]]).
  assert (P0 : Forall no_export t0) by (repeat constructor).
  pose proof (load_data_no_export lp_file "edlp" t0 P0) as P1.
  destruct (load_data lp_file "edlp" t0) as [[[[raw_lp a] b]|e] t1];
    simpl in P1; [|right; eauto].
  destruct (clean_lp_data raw_lp) as [lp_data|e]; [|right; eauto].
  destruct (Pandas.new lp_data _) as [lp_df|e] eqn:N1; [|right; eauto].
  apply new_returns in N1; subst lp_df.
  pose proof (load_data_no_export sd_file "edsd" t1 P1) as P2.
  destruct (load_data sd_file "edsd" t1) as [[[[raw_sd c] d]|e] t2];
    simpl in P2; [|right; eauto].
  destruct (clean_sd_data raw_sd) as [sd_data|e]; [|right; eauto].
  destruct (Pandas.new sd_data _) as [sd_df|e] eqn:N2; [|right; eauto].
  apply new_returns in N2; subst sd_df.
  fold lp_headings sd_headings.
  fold (lp_frame lp_data) (sd_frame sd_data).
  fold start_headings expiry_headings.
  assert (Es : compare_dates (lp_frame lp_data) (sd_frame sd_data) "StudentID"
                 "Start Date" start_headings = _)
    by (apply compare_frames; [simpl; auto 12 | simpl; auto 12 |
        repeat constructor; simpl; auto 12]).
  assert (Ee : compare_dates (lp_frame lp_data) (sd_frame sd_data) "StudentID"
                 "Expiry Date" expiry_headings = _)
    by (apply compare_frames; [simpl; auto 12 | simpl; auto 12 |
        repeat constructor; simpl; auto 12]).
  rewrite Es, Ee.
  left; exists t2; do 4 eexists; split; [assumption|].
  rewrite <- !app_assoc; reflexivity.
Qed.
